(** * Verification model of the support-chat backend (pauly7610/search)

    Shallow embedding of the Python services under
    [src/backend/src/services]: the conversation context tracker and the
    coordinator of [chat_service.py], the keyword classifier of
    [local_intent_service.py], the metrics collector of
    [conversation_metrics.py] and the hybrid score of [semantic_search.py].

    Conventions of the model:
    - Python [str] values are ASCII [string]s; [str.lower], [str.split],
      [str.strip] and the [in] operator are written out below for ASCII.
    - Python [int] is [Z]; Python [float] is [Q] (exact rationals).
    - Python dicts used as records are Rocq records; dicts used as maps
      are [gmap]; dicts whose iteration order matters are association
      lists in insertion order.
    - Exceptions are the type [exn]; [except Exception] catches only the
      [Exception] branch, never the [BaseException]-only classes. *)

From Stdlib Require Import String Ascii ZArith QArith Qminmax Lia Lqa Sorted Floats.
From stdpp Require Import base gmap strings list.

Open Scope string_scope.

(* ------------------------------------------------------------------ *)
(** ** ASCII string helpers (Python [str] methods) *)

Module PyStr.

Definition is_upper (c : ascii) : bool :=
  let n := nat_of_ascii c in (Nat.leb 65 n && Nat.leb n 90)%bool.

(** [str.lower] on ASCII. *)
Definition lower_char (c : ascii) : ascii :=
  if is_upper c then ascii_of_nat (nat_of_ascii c + 32) else c.

Fixpoint lower (s : string) : string :=
  match s with
  | EmptyString => EmptyString
  | String c s' => String (lower_char c) (lower s')
  end.

(** The ASCII characters that Python's [str.split()] and [str.strip()]
    treat as whitespace: \t \n \x0b \x0c \r \x1c-\x1f and space. *)
Definition is_space (c : ascii) : bool :=
  let n := nat_of_ascii c in
  (((Nat.leb 9 n && Nat.leb n 13) || (Nat.leb 28 n && Nat.leb n 32)))%bool.

(** [str.split()] with no separator: runs of whitespace separate
    words, no empty words. *)
Fixpoint split_ws_aux (s : string) (cur : string) : list string :=
  match s with
  | EmptyString => if String.eqb cur "" then [] else [cur]
  | String c s' =>
      if is_space c then
        (if String.eqb cur "" then [] else [cur]) ++ split_ws_aux s' ""
      else split_ws_aux s' (cur ++ String c EmptyString)
  end.

Definition split_ws (s : string) : list string := split_ws_aux s "".

(** [str.split(sep)] with a one-character separator: keeps empty
    pieces. *)
Fixpoint split_on_aux (sep : ascii) (s : string) (cur : string) : list string :=
  match s with
  | EmptyString => [cur]
  | String c s' =>
      if Ascii.eqb c sep then cur :: split_on_aux sep s' ""
      else split_on_aux sep s' (cur ++ String c EmptyString)
  end.

Definition split_on (sep : ascii) (s : string) : list string :=
  split_on_aux sep s "".

Fixpoint lstrip (s : string) : string :=
  match s with
  | EmptyString => EmptyString
  | String c s' => if is_space c then lstrip s' else s
  end.

Definition rev_str (s : string) : string :=
  string_of_list_ascii (rev (list_ascii_of_string s)).

Definition strip (s : string) : string := rev_str (lstrip (rev_str (lstrip s))).

Fixpoint is_prefix (p s : string) : bool :=
  match p, s with
  | EmptyString, _ => true
  | String a p', String b s' => (Ascii.eqb a b && is_prefix p' s')%bool
  | String _ _, EmptyString => false
  end.

(** Python's [p in s] for strings. *)
Fixpoint contains (p s : string) : bool :=
  match s with
  | EmptyString => is_prefix p s
  | String _ s' => (is_prefix p s || contains p s')%bool
  end.

(** [", ".join] style join. *)
Fixpoint join (sep : string) (l : list string) : string :=
  match l with
  | [] => ""
  | [x] => x
  | x :: l' => x ++ sep ++ join sep l'
  end.

(** [s[:n]] *)
Definition take (n : nat) (s : string) : string := substring 0 n s.

Fixpoint count_upper (s : string) : nat :=
  match s with
  | EmptyString => 0
  | String c s' => (if is_upper c then 1 else 0) + count_upper s'
  end.

End PyStr.

(* ------------------------------------------------------------------ *)
(** ** A regular-expression engine for the [re.search] calls

    The patterns of [chat_service.py] use literals, groups [(?:a|b)],
    [?] and a character class with [{2,}]; they are written below as
    terms of [regex].  [re_search r s] holds when some substring of [s]
    matches [r], which is what [re.search(r, s)] tests for truth. *)

Module Regex.

Inductive regex :=
| RNone
| REps
| RChr (c : ascii)
| RAnyChar
| RCat (r1 r2 : regex)
| RAlt (r1 r2 : regex)
| RStar (r : regex).

Fixpoint nullable (r : regex) : bool :=
  match r with
  | RNone | RChr _ | RAnyChar => false
  | REps | RStar _ => true
  | RCat r1 r2 => (nullable r1 && nullable r2)%bool
  | RAlt r1 r2 => (nullable r1 || nullable r2)%bool
  end.

(** Brzozowski derivative. *)
Fixpoint deriv (c : ascii) (r : regex) : regex :=
  match r with
  | RNone | REps => RNone
  | RChr d => if Ascii.eqb c d then REps else RNone
  | RAnyChar => REps
  | RCat r1 r2 =>
      if nullable r1 then RAlt (RCat (deriv c r1) r2) (deriv c r2)
      else RCat (deriv c r1) r2
  | RAlt r1 r2 => RAlt (deriv c r1) (deriv c r2)
  | RStar r1 => RCat (deriv c r1) (RStar r1)
  end.

Fixpoint matches (r : regex) (s : string) : bool :=
  match s with
  | EmptyString => nullable r
  | String c s' => matches (deriv c r) s'
  end.

Definition re_search (r : regex) (s : string) : bool :=
  matches (RCat (RStar RAnyChar) (RCat r (RStar RAnyChar))) s.

Fixpoint lit (s : string) : regex :=
  match s with
  | EmptyString => REps
  | String c s' => RCat (RChr c) (lit s')
  end.

Definition opt (r : regex) : regex := RAlt REps r.

(** [(?:a|b|...)] over literals. *)
Fixpoint alts (l : list string) : regex :=
  match l with
  | [] => RNone
  | [x] => lit x
  | x :: l' => RAlt (lit x) (alts l')
  end.

Fixpoint seq (l : list regex) : regex :=
  match l with
  | [] => REps
  | [r] => r
  | r :: l' => RCat r (seq l')
  end.

End Regex.

Import Regex.

(* ------------------------------------------------------------------ *)
(** ** Conversation context ([ConversationState], [ConversationContext]) *)

Inductive ConversationState :=
| INITIAL
| PROBLEM_SOLVING
| FOLLOW_UP
| ESCALATION
| RESOLVED.

Definition state_value (st : ConversationState) : string :=
  match st with
  | INITIAL => "initial"
  | PROBLEM_SOLVING => "problem_solving"
  | FOLLOW_UP => "follow_up"
  | ESCALATION => "escalation"
  | RESOLVED => "resolved"
  end.

Definition state_eqb (a b : ConversationState) : bool :=
  String.eqb (state_value a) (state_value b).

(** One entry of [resolution_attempts]. *)
Record ResolutionAttempt := {
  ra_solution : string;
  ra_timestamp : string;
  ra_outcome : string;
  ra_user_feedback : string
}.

Record ConversationContext := {
  conversation_id : string;
  user_id : string;
  current_state : ConversationState;
  last_solution_offered : option string;
  attempt_count : Z;
  frustration_level : Z;
  topic : option string;
  preferred_tone : string;
  resolution_attempts : list ResolutionAttempt
}.

(** The dataclass defaults. *)
Definition new_context (cid uid : string) : ConversationContext := {|
  conversation_id := cid; user_id := uid; current_state := INITIAL;
  last_solution_offered := None; attempt_count := 0;
  frustration_level := 0; topic := None; preferred_tone := "helpful";
  resolution_attempts := [] |}.

(** Python truthiness of an [Optional[str]]. *)
Definition truthy_str (o : option string) : bool :=
  match o with
  | Some s => negb (String.eqb s "")
  | None => false
  end.

(** [self.follow_up_patterns] *)
Definition follow_up_patterns : list regex := [
  (* r"that (?:didn't|doesn't?) work" *)
  seq [lit "that "; RAlt (lit "didn't") (RCat (lit "doesn'") (opt (lit "t"))); lit " work"];
  (* r"(?:still|it's still) not working" *)
  seq [alts ["still"; "it's still"]; lit " not working"];
  (* r"(?:that|it) (?:didn't|doesn't) help" *)
  seq [alts ["that"; "it"]; lit " "; alts ["didn't"; "doesn't"]; lit " help"];
  (* r"(?:try|give me) (?:something|another) (?:else|different)" *)
  seq [alts ["try"; "give me"]; lit " "; alts ["something"; "another"]; lit " ";
       alts ["else"; "different"]];
  (* r"what else (?:can|could) (?:you|we)" *)
  seq [lit "what else "; alts ["can"; "could"]; lit " "; alts ["you"; "we"]];
  (* r"(?:any|got) other (?:ideas|suggestions|solutions)" *)
  seq [alts ["any"; "got"]; lit " other "; alts ["ideas"; "suggestions"; "solutions"]];
  (* r"(?:doesn't|isn't?) (?:solving|fixing) (?:my|the) (?:problem|issue)" *)
  seq [RAlt (lit "doesn't") (RCat (lit "isn'") (opt (lit "t"))); lit " ";
       alts ["solving"; "fixing"]; lit " "; alts ["my"; "the"]; lit " ";
       alts ["problem"; "issue"]];
  (* r"I need (?:more|different|another) help" *)
  seq [lit "I need "; alts ["more"; "different"; "another"]; lit " help"];
  (* r"(?:can you|could you) help (?:me )?(?:with )?something else" *)
  seq [alts ["can you"; "could you"]; lit " help "; opt (lit "me ");
       opt (lit "with "); lit "something else"]
].

(** [self.frustration_indicators] *)
Definition frustration_indicators : list regex := [
  (* r"(?:this is )?(?:really )?frustrating" *)
  seq [opt (lit "this is "); opt (lit "really "); lit "frustrating"];
  (* r"(?:why )?(?:is this|this is) so (?:hard|difficult|complicated)" *)
  seq [opt (lit "why "); alts ["is this"; "this is"]; lit " so ";
       alts ["hard"; "difficult"; "complicated"]];
  (* r"(?:I|we) (?:already|just) tried that" *)
  seq [alts ["I"; "we"]; lit " "; alts ["already"; "just"]; lit " tried that"];
  (* r"(?:that|this) (?:makes no|doesn't make) sense" *)
  seq [alts ["that"; "this"]; lit " "; alts ["makes no"; "doesn't make"]; lit " sense"];
  (* r"(?:I|we) (?:need|want) to (?:speak|talk) to (?:a )?(?:human|person|someone)" *)
  seq [alts ["I"; "we"]; lit " "; alts ["need"; "want"]; lit " to ";
       alts ["speak"; "talk"]; lit " to "; opt (lit "a ");
       alts ["human"; "person"; "someone"]];
  (* r"(?:this )?(?:chatbot|bot|system) (?:is )?(?:useless|not helping|broken)" *)
  seq [opt (lit "this "); alts ["chatbot"; "bot"; "system"]; lit " ";
       opt (lit "is "); alts ["useless"; "not helping"; "broken"]]
].

(** r"[!?]{2,}" *)
Definition punct_class : regex := RAlt (RChr "!") (RChr "?").
Definition multi_punct : regex := RCat punct_class (RCat punct_class (RStar punct_class)).

(** [ChatService.detect_follow_up] *)
Definition detect_follow_up (message : string) (context : ConversationContext) : bool :=
  let message_lower := PyStr.lower message in
  if existsb (fun p => re_search p message_lower) follow_up_patterns then true
  else if (state_eqb (current_state context) PROBLEM_SOLVING
           && truthy_str (last_solution_offered context)
           && Nat.ltb (length (PyStr.split_ws message)) 10)%bool
  then true
  else false.

(** The caps-lock test [sum(c.isupper()) / max(len(message), 1) > 0.3]. *)
Definition caps_ratio_high (message : string) : bool :=
  let caps := inject_Z (Z.of_nat (PyStr.count_upper message)) in
  let len := inject_Z (Z.max (Z.of_nat (String.length message)) 1) in
  negb (Qle_bool (caps / len) (3 # 10)).

(** [ChatService.detect_frustration_level] *)
Open Scope Z_scope.
Definition detect_frustration_level (message : string) (context : ConversationContext) : Z :=
  let message_lower := PyStr.lower message in
  let frustration_score := frustration_level context in
  let frustration_score :=
    fold_left (fun sc p => if re_search p message_lower then sc + 2 else sc)
              frustration_indicators frustration_score in
  let frustration_score :=
    if caps_ratio_high message then frustration_score + 1 else frustration_score in
  let frustration_score :=
    if re_search multi_punct message then frustration_score + 1 else frustration_score in
  let frustration_score :=
    if Z.ltb 2 (attempt_count context) then frustration_score + 1 else frustration_score in
  Z.min frustration_score 10.
Close Scope Z_scope.

(** [ChatService.determine_tone] *)
Definition determine_tone (context : ConversationContext) : string :=
  if Z.leb 7%Z (frustration_level context) then "empathetic_escalation"
  else if Z.leb 4%Z (frustration_level context) then "empathetic_supportive"
  else if Z.leb 3%Z (attempt_count context) then "patient_alternative"
  else if state_eqb (current_state context) FOLLOW_UP then "understanding_adaptive"
  else "helpful_friendly".

(* ------------------------------------------------------------------ *)
(** ** Knowledge base as loaded by [ChatService.__init__]

    [self.kb] is the ["agents"] object of the JSON file: agent name to
    [{"name": ..., "categories": {category: {"responses": [...]}}}].
    JSON objects keep their file order in Python, so categories are an
    association list in that order. *)

Record KBResponse := {
  kb_content : string;
  kb_type : string;
  kb_keywords : list string
}.

Record AgentKB := {
  agent_name : option string;
  categories : list (string * list KBResponse)
}.

Definition KB := list (string * AgentKB).

Fixpoint assoc {A} (k : string) (l : list (string * A)) : option A :=
  match l with
  | [] => None
  | (k', v) :: l' => if String.eqb k k' then Some v else assoc k l'
  end.

(** [self.kb.get(agent, {}).get("categories", {})] *)
Definition agent_categories (kb : KB) (agent : string) : list (string * list KBResponse) :=
  match assoc agent kb with
  | Some a => categories a
  | None => []
  end.

(** [self.kb.get(agent, {}).get("name", "Support Agent")] *)
Definition agent_display_name (kb : KB) (agent : string) : string :=
  match assoc agent kb with
  | Some {| agent_name := Some n |} => n
  | _ => "Support Agent"
  end.

(* ------------------------------------------------------------------ *)
(** ** Service state ([ChatService] attributes) *)

Record ChatService := {
  (** [self.conversations]: the ids that own a [ConversationChain]. *)
  conversations : gset string;
  conversation_contexts : gmap string ConversationContext;
  kb : KB;
  llm_available : bool;
  intent_service_available : bool
}.

Definition set_contexts (svc : ChatService) (m : gmap string ConversationContext) : ChatService :=
  {| conversations := conversations svc; conversation_contexts := m; kb := kb svc;
     llm_available := llm_available svc;
     intent_service_available := intent_service_available svc |}.

Definition set_conversations (svc : ChatService) (c : gset string) : ChatService :=
  {| conversations := c; conversation_contexts := conversation_contexts svc; kb := kb svc;
     llm_available := llm_available svc;
     intent_service_available := intent_service_available svc |}.

(** [ChatService.get_or_create_context] *)
Definition get_or_create_context (svc : ChatService) (cid uid : string)
  : ConversationContext * ChatService :=
  match conversation_contexts svc !! cid with
  | Some ctx => (ctx, svc)
  | None =>
      let uid' := if String.eqb uid "" then cid else uid in
      let ctx := new_context cid uid' in
      (ctx, set_contexts svc (<[cid := ctx]> (conversation_contexts svc)))
  end.

(** The body of [update_context] on an existing context, as a function
    of the context object it mutates.  [now_iso] is the value of
    [datetime.utcnow().isoformat()]. *)
Definition update_context_obj (context : ConversationContext) (message : string)
  (solution_offered : option string) (now_iso : string) : ConversationContext :=
  let is_follow_up := detect_follow_up message context in
  let context :=
    if is_follow_up then
      let c1 := {| conversation_id := conversation_id context;
                   user_id := user_id context;
                   current_state := FOLLOW_UP;
                   last_solution_offered := last_solution_offered context;
                   attempt_count := attempt_count context + 1;
                   frustration_level := frustration_level context;
                   topic := topic context;
                   preferred_tone := preferred_tone context;
                   resolution_attempts := resolution_attempts context |} in
      let c2 := {| conversation_id := conversation_id c1;
                   user_id := user_id c1;
                   current_state := current_state c1;
                   last_solution_offered := last_solution_offered c1;
                   attempt_count := attempt_count c1;
                   frustration_level := detect_frustration_level message c1;
                   topic := topic c1;
                   preferred_tone := preferred_tone c1;
                   resolution_attempts := resolution_attempts c1 |} in
      match last_solution_offered c2 with
      | Some sol =>
          if truthy_str (Some sol) then
            {| conversation_id := conversation_id c2;
               user_id := user_id c2;
               current_state := current_state c2;
               last_solution_offered := last_solution_offered c2;
               attempt_count := attempt_count c2;
               frustration_level := frustration_level c2;
               topic := topic c2;
               preferred_tone := preferred_tone c2;
               resolution_attempts :=
                 resolution_attempts c2 ++
                   [{| ra_solution := sol; ra_timestamp := now_iso;
                       ra_outcome := "ineffective"; ra_user_feedback := message |}] |}
          else c2
      | None => c2
      end
    else context in
  let context :=
    if truthy_str solution_offered then
      {| conversation_id := conversation_id context;
         user_id := user_id context;
         current_state := if is_follow_up then current_state context else PROBLEM_SOLVING;
         last_solution_offered := solution_offered;
         attempt_count := attempt_count context;
         frustration_level := frustration_level context;
         topic := topic context;
         preferred_tone := preferred_tone context;
         resolution_attempts := resolution_attempts context |}
    else context in
  {| conversation_id := conversation_id context;
     user_id := user_id context;
     current_state := current_state context;
     last_solution_offered := last_solution_offered context;
     attempt_count := attempt_count context;
     frustration_level := frustration_level context;
     topic := topic context;
     preferred_tone := determine_tone context;
     resolution_attempts := resolution_attempts context |}.

(** [ChatService.update_context]: the context object is shared with the
    map, so the mutation is the map entry being replaced. *)
Definition update_context (svc : ChatService) (conversation_id : string) (message : string)
  (solution_offered : option string) (now_iso : string)
  : option ConversationContext * ChatService :=
  match conversation_contexts svc !! conversation_id with
  | None => (None, svc)
  | Some context =>
      let context' := update_context_obj context message solution_offered now_iso in
      (Some context', set_contexts svc (<[conversation_id := context']> (conversation_contexts svc)))
  end.

(* ------------------------------------------------------------------ *)
(** ** Exact/overlap retrieval ([normalize], [tokenize], [search_agent_kb]) *)

Definition keep_char (c : ascii) : bool :=
  let n := nat_of_ascii c in
  ((Nat.leb 97 n && Nat.leb n 122) || (Nat.leb 48 n && Nat.leb n 57) || Nat.eqb n 32)%bool.

Fixpoint underscore_to_space (s : string) : string :=
  match s with
  | EmptyString => EmptyString
  | String c s' =>
      String (if Ascii.eqb c "_" then " "%char else c) (underscore_to_space s')
  end.

Fixpoint filter_chars (s : string) : string :=
  match s with
  | EmptyString => EmptyString
  | String c s' => if keep_char c then String c (filter_chars s') else filter_chars s'
  end.

(** [ChatService.normalize] *)
Definition normalize (text : string) : string :=
  PyStr.strip (filter_chars (underscore_to_space (PyStr.lower text))).

(** [ChatService.tokenize]: the set of words, as a list. *)
Definition tokenize (text : string) : list string := PyStr.split_ws (normalize text).

(** Non-emptiness of [a & b] for token sets. *)
Definition tokens_meet (a b : list string) : bool :=
  existsb (fun x => existsb (String.eqb x) b) a.

(** The category-name test of the first pass. *)
Definition category_matches (cat_name message : string) : bool :=
  let message_norm := normalize message in
  let cat_name_norm := normalize cat_name in
  (PyStr.contains cat_name_norm message_norm
   || PyStr.contains message_norm cat_name_norm
   || tokens_meet (tokenize cat_name) (tokenize message))%bool.

(** Keyword-overlap score of one response. *)
Definition response_score (message_tokens : list string) (resp : KBResponse) : nat :=
  fold_left (fun score kw => if tokens_meet (tokenize kw) message_tokens then S score else score)
            (kb_keywords resp) 0%nat.

(** The scoring loop over one category's responses. *)
Fixpoint score_responses (message_tokens : list string) (resps : list KBResponse)
  (best_match : option KBResponse) (best_score : nat) : option KBResponse * nat :=
  match resps with
  | [] => (best_match, best_score)
  | resp :: rest =>
      let score := response_score message_tokens resp in
      if Nat.ltb best_score score
      then score_responses message_tokens rest (Some resp) score
      else score_responses message_tokens rest best_match best_score
  end.

(** The loop over categories: early [return] on a category-name match
    with a non-empty response list, otherwise scoring. *)
Fixpoint search_categories (message : string) (cats : list (string * list KBResponse))
  (best_match : option KBResponse) (best_score : nat) : option KBResponse :=
  match cats with
  | [] => best_match
  | (cat_name, resps) :: rest =>
      match (if category_matches cat_name message then resps else []) with
      | r0 :: _ => Some r0
      | [] =>
          let '(bm, bs) := score_responses (tokenize message) resps best_match best_score in
          search_categories message rest bm bs
      end
  end.

(** [ChatService.search_agent_kb] *)
Definition search_agent_kb (kb : KB) (agent message : string) : option KBResponse :=
  search_categories message (agent_categories kb agent) None 0%nat.

(* ------------------------------------------------------------------ *)
(** ** Python values, exceptions and the coordinator's monad *)

#[local] Set Warnings "-register-all".
(** JSON-like Python values held in response dicts. *)
Inductive pyval :=
| PStr (s : string)
| PFloat (q : Q)
| PInt (z : Z)
| PBool (b : bool)
| PNone
| PList (l : list pyval).

(** Python exceptions: [Exception] subclasses, and the classes that
    derive from [BaseException] only ([asyncio.CancelledError],
    [KeyboardInterrupt], [SystemExit]). *)
Inductive exn :=
| Exception (cls msg : string)
| BaseException (cls : string).

(** [str(e)] *)
Definition exn_str (e : exn) : string :=
  match e with
  | Exception _ msg => msg
  | BaseException _ => ""
  end.

(** State and exception monad over the service: mutations done before
    an exception is raised are kept, as in Python. *)
Definition PyM (A : Type) : Type := ChatService -> (exn + A) * ChatService.

Definition ret {A} (a : A) : PyM A := fun s => (inr a, s).
Definition bind {A B} (m : PyM A) (f : A -> PyM B) : PyM B :=
  fun s => match m s with
           | (inl e, s') => (inl e, s')
           | (inr a, s') => f a s'
           end.
Definition raise {A} (e : exn) : PyM A := fun s => (inl e, s).
Definition lift {A} (r : exn + A) : PyM A := fun s => (r, s).
Definition gets {A} (f : ChatService -> A) : PyM A := fun s => (inr (f s), s).
Definition modify (f : ChatService -> ChatService) : PyM unit := fun s => (inr tt, f s).

(** [try: body except Exception as e: handler(e)] *)
Definition try_except {A} (body : PyM A) (handler : exn -> PyM A) : PyM A :=
  fun s => match body s with
           | (inl (Exception c m), s') => handler (Exception c m) s'
           | r => r
           end.

Notation "'let*' x := m 'in' k" := (bind m (fun x => k))
  (at level 200, x name, m at level 100, k at level 200).

(** A response dict of the coordinator. *)
Record Response := {
  answer : string;
  agent : string;
  agent_type : string;
  answer_type : string;
  intent : string;
  intent_data : list (string * pyval);
  solution_summary : option string;
  conversation_flow : option string;
  conversation_metrics : option (list (string * pyval))
}.

(** The prompts sent to [chain.arun]: the follow-up prompt of
    [create_follow_up_prompt] is determined by these fields. *)
Inductive Prompt :=
| PFollowUp (message : string) (attempts frustration : Z) (previous : option string)
| PUser (message : string).

(** External collaborators, one outcome per call of this turn. *)
Record Env := {
  (** [await self.intent_service.route_message(message)] *)
  route_message : string -> exn + (string * list (string * pyval));
  (** [ChatOpenAI(temperature=0.7, model="gpt-3.5-turbo")] *)
  new_chat_llm : exn + unit;
  (** [await chain.arun(prompt)] *)
  arun : Prompt -> exn + string;
  (** [datetime.utcnow().isoformat()] *)
  now_iso : string;
  (** [(time.time() - start_time) * 1000] *)
  elapsed_ms : Q
}.

(* ------------------------------------------------------------------ *)
(** ** Coordinator pieces of [ChatService] *)

Definition action_words : list string := ["try"; "click"; "go to"; "check"; "update"; "restart"].

(** [ChatService.extract_solution_summary] *)
Definition extract_solution_summary (response : string) : string :=
  let sentences := PyStr.split_on "." response in
  let action_sentences :=
    map PyStr.strip
      (List.filter (fun s => existsb (fun a => PyStr.contains a (PyStr.lower s)) action_words)
              sentences) in
  match action_sentences with
  | [] => PyStr.take 100 response
  | _ => PyStr.join ". " (firstn 2 action_sentences)
  end.

(** [ChatService.get_or_create_conversation_with_tone]: a new chain
    wraps a fresh [ChatOpenAI] when the LLM is available and [None]
    otherwise, which [ConversationChain] rejects. *)
Definition get_or_create_conversation_with_tone (env : Env) (conversation_id tone : string)
  : PyM unit :=
  let* convs := gets conversations in
  if decide (conversation_id ∈ convs) then ret tt
  else
    let* avail := gets llm_available in
    let* _ := (if avail then lift (new_chat_llm env)
          else raise (Exception "ValidationError" "1 validation error for ConversationChain llm")) in
    modify (fun s => set_conversations s ({[conversation_id]} ∪ conversations s)).

(** [ChatService.create_empathetic_fallback_text] *)
Definition create_empathetic_fallback_text (context : ConversationContext) : string :=
  if Z.leb 6 (frustration_level context)
  then "I understand this has been frustrating. Let me try a different approach to help you. Could you tell me more specifically what happened when you tried the previous suggestion?"
  else "I see that the previous solution didn't work as expected. Let me suggest a different approach. Can you tell me more details about what you're experiencing?".

(** [ChatService.create_empathetic_fallback] *)
Definition create_empathetic_fallback (context : ConversationContext) : Response :=
  {| answer :=
       if Z.leb 6 (frustration_level context)
       then "I understand this has been frustrating. Let me connect you with a human agent who can provide more personalized assistance."
       else "I apologize that my previous suggestion didn't work as expected. Let me try a different approach to help resolve this issue.";
     agent := "Empathy Engine";
     agent_type := "supportive";
     answer_type := "empathetic_fallback";
     intent := "support";
     intent_data := [("empathy_triggered", PBool true)];
     solution_summary := None;
     conversation_flow := Some "empathetic_support";
     conversation_metrics := None |}.

(** [ChatService.handle_follow_up] *)
Definition handle_follow_up (env : Env) (conversation_id message : string)
  (context : ConversationContext) : PyM Response :=
  let* _ := get_or_create_conversation_with_tone env conversation_id (preferred_tone context) in
  let follow_up_prompt :=
    PFollowUp message (attempt_count context) (frustration_level context)
              (last_solution_offered context) in
  try_except
    (let* avail := gets llm_available in
     let* response := (if avail then lift (arun env follow_up_prompt)
                  else ret (create_empathetic_fallback_text context)) in
     ret {| answer := response;
            agent := "Enhanced AI Assistant";
            agent_type := "conversational";
            answer_type := "follow_up_response";
            intent := "follow_up_assistance";
            intent_data := [("is_follow_up", PBool true);
                            ("attempt_count", PInt (attempt_count context));
                            ("frustration_level", PInt (frustration_level context));
                            ("previous_solutions",
                              PInt (Z.of_nat (length (resolution_attempts context))))];
            solution_summary := Some (extract_solution_summary response);
            conversation_flow := Some "follow_up_adaptive";
            conversation_metrics := None |})
    (fun _ => ret (create_empathetic_fallback context)).

Definition tech_keywords : list string :=
  ["internet"; "wifi"; "modem"; "router"; "connection"; "slow"; "outage"; "not working";
   "down"; "offline"; "reset"; "restart"; "troubleshoot"; "technical"; "equipment";
   "cable"; "signal"; "speed"].

Definition billing_keywords : list string :=
  ["bill"; "billing"; "payment"; "charge"; "cost"; "price"; "fee"; "account";
   "subscription"; "plan"; "upgrade"; "downgrade"; "cancel"; "refund"; "credit";
   "balance"; "due"; "overdue"; "autopay"].

(** [ChatService.simple_agent_routing] *)
Definition simple_agent_routing (message : string) : string :=
  let message_lower := PyStr.lower message in
  let tech_score := length (List.filter (fun k => PyStr.contains k message_lower) tech_keywords) in
  let billing_score := length (List.filter (fun k => PyStr.contains k message_lower) billing_keywords) in
  if Nat.ltb billing_score tech_score then "tech_support"
  else if Nat.ltb 0 billing_score then "billing"
  else "general".

(** Intent to agent, as in [handle_regular_message]. *)
Definition agent_of_intent (intent : string) : string :=
  if String.eqb intent "technical_support" then "tech_support"
  else if String.eqb intent "billing" then "billing"
  else "general".

Definition fallback_agents : list string := ["tech_support"; "billing"; "general"].

(** The loop over the other agents: the first hit and its agent. *)
Fixpoint search_fallback_agents (kb : KB) (agent message : string) (agents : list string)
  : option (KBResponse * string) :=
  match agents with
  | [] => None
  | a :: rest =>
      if negb (String.eqb a agent) then
        match search_agent_kb kb a message with
        | Some r => Some (r, a)
        | None => search_fallback_agents kb agent message rest
        end
      else search_fallback_agents kb agent message rest
  end.

Definition rate_limit_answer : string :=
  "I'm here to help with your Xfinity services. I can assist with internet issues, billing questions, equipment troubleshooting, and general support. What specific problem are you experiencing?".

Definition clarify_answer : string :=
  "I found some information that might help you. Could you be more specific about what you're looking for?".

(** [ChatService.handle_regular_message] *)
Definition handle_regular_message (env : Env) (conversation_id message : string)
  (context : ConversationContext) : PyM Response :=
  let keyword_route :=
    let agent := simple_agent_routing message in
    (agent, [("confidence", PFloat (1 # 2)); ("keywords", PList [])], agent) in
  let* isa := gets intent_service_available in
  let* routed :=
    (if isa then
       try_except
         (let* r := lift (route_message env message) in
          ret (fst r, snd r, agent_of_intent (fst r)))
         (fun _ => ret keyword_route)
     else ret keyword_route) in
  let '(intent0, intent_data0, agent0) := routed in
  let* the_kb := gets kb in
  let kb_hit :=
    match search_agent_kb the_kb agent0 message with
    | Some r => Some (r, agent0)
    | None => search_fallback_agents the_kb agent0 message fallback_agents
    end in
  let* found :=
    (match kb_hit with
     | Some (r, a) => ret (kb_content r, kb_type r, a)
     | None =>
         let* avail := gets llm_available in
         if avail then
           try_except
             (let* _ := get_or_create_conversation_with_tone env conversation_id
                          (preferred_tone context) in
              let* ans := lift (arun env (PUser message)) in
              ret (ans, "llm_generated", agent0))
             (fun e =>
                let msg := exn_str e in
                if (PyStr.contains "rate limit" (PyStr.lower msg) || PyStr.contains "429" msg)%bool
                then ret (rate_limit_answer, "kb_fallback", agent0)
                else ret (clarify_answer, "kb_fallback", agent0))
         else ret (rate_limit_answer, "kb_fallback", agent0)
     end) in
  let '(answer0, answer_type0, agent1) := found in
  ret {| answer := answer0;
         agent := agent_display_name the_kb agent1;
         agent_type := agent1;
         answer_type := answer_type0;
         intent := intent0;
         intent_data := intent_data0;
         solution_summary := Some (extract_solution_summary answer0);
         conversation_flow := Some "regular_flow";
         conversation_metrics := None |}.

(** The [try] block of [ChatService.coordinator]. *)
Definition coordinator_body (env : Env) (conversation_id message : string) : PyM Response :=
  let* context := (fun s => let '(c, s') := get_or_create_context s conversation_id conversation_id
                            in (inr c, s')) in
  let is_follow_up := detect_follow_up message context in
  let* response_data :=
    (if is_follow_up then handle_follow_up env conversation_id message context
     else handle_regular_message env conversation_id message context) in
  let solution_offered := solution_summary response_data in
  let* _ := (fun s => let '(r, s') := update_context s conversation_id message solution_offered
                                                      (now_iso env) in (inr r, s')) in
  (* [context] is the object held in the map, mutated in place *)
  let* ctxs := gets conversation_contexts in
  let context := default context (ctxs !! conversation_id) in
  ret {| answer := answer response_data;
         agent := agent response_data;
         agent_type := agent_type response_data;
         answer_type := answer_type response_data;
         intent := intent response_data;
         intent_data := intent_data response_data;
         solution_summary := solution_summary response_data;
         conversation_flow := conversation_flow response_data;
         conversation_metrics :=
           Some [("processing_time_ms", PFloat (elapsed_ms env));
                 ("is_follow_up", PBool is_follow_up);
                 ("attempt_count", PInt (attempt_count context));
                 ("frustration_level", PInt (frustration_level context));
                 ("conversation_state", PStr (state_value (current_state context)));
                 ("tone_used", PStr (preferred_tone context))] |}.

(** The fixed response of the [except] branch of the coordinator. *)
Definition error_fallback_response (elapsed : Q) : Response :=
  {| answer := "I'm here to help with your Xfinity services. You can ask me about internet issues, billing questions, or general support.";
     agent := "General Support";
     agent_type := "general";
     answer_type := "error_fallback";
     intent := "general";
     intent_data := [("confidence", PFloat 0); ("keywords", PList [])];
     solution_summary := None;
     conversation_flow := None;
     conversation_metrics :=
       Some [("processing_time_ms", PFloat elapsed);
             ("is_follow_up", PBool false);
             ("attempt_count", PInt 0);
             ("frustration_level", PInt 0);
             ("conversation_state", PStr "error");
             ("tone_used", PStr "helpful_friendly")] |}.

(** [ChatService.coordinator] *)
Definition coordinator (env : Env) (conversation_id message : string) : PyM Response :=
  try_except (coordinator_body env conversation_id message)
             (fun _ => ret (error_fallback_response (elapsed_ms env))).

(* ------------------------------------------------------------------ *)
(** ** [LocalIntentService.classify_intent] (scores as exact rationals) *)

Module LocalIntent.

Local Open Scope Q_scope.

Record IntentPattern := {
  ip_keywords : list string;
  ip_phrases : list string;
  ip_confidence_boost : Q
}.

(** [self.intent_patterns], in declaration order. *)
Definition intent_patterns : list (string * IntentPattern) := [
  ("billing", {|
    ip_keywords := ["bill"; "billing"; "charge"; "charges"; "payment"; "pay"; "cost"; "costs";
      "expensive"; "high bill"; "overcharge"; "refund"; "credit"; "balance";
      "account"; "statement"; "invoice"; "fee"; "fees"; "price"; "pricing";
      "my bill is so high"; "help me understand my bill"; "explain my charges";
      "why is my bill"; "billing question"; "payment due"; "autopay"];
    ip_phrases := ["my bill is so high"; "help me understand my bill"; "explain my charges";
      "why is my bill"; "how much do i owe"; "payment is due"; "can't afford";
      "billing error"; "wrong charge"; "unexpected charge"];
    ip_confidence_boost := 3 # 10 |});
  ("technical_support", {|
    ip_keywords := ["internet"; "wifi"; "connection"; "slow"; "down"; "outage"; "not working";
      "broken"; "fix"; "repair"; "troubleshoot"; "speed"; "bandwidth"; "modem";
      "router"; "cable"; "signal"; "network"; "ethernet"; "wireless"; "connect";
      "disconnect"; "reset"; "reboot"; "setup"; "install"; "configuration"];
    ip_phrases := ["internet is slow"; "wifi not working"; "connection problems"; "can't connect";
      "internet is down"; "no internet"; "wifi issues"; "slow speed"; "internet out";
      "connection lost"; "can't get online"; "network problems"];
    ip_confidence_boost := 3 # 10 |});
  ("equipment", {|
    ip_keywords := ["box"; "cable box"; "remote"; "tv"; "television"; "dvr"; "receiver";
      "equipment"; "device"; "hardware"; "replacement"; "upgrade"; "install";
      "setup"; "activation"; "activate"; "new equipment"; "broken equipment"];
    ip_phrases := ["cable box not working"; "remote not working"; "tv problems"; "need new equipment";
      "equipment broken"; "box is broken"; "remote broken"; "dvr issues"];
    ip_confidence_boost := 2 # 10 |});
  ("general", {|
    ip_keywords := ["help"; "support"; "assistance"; "question"; "info"; "information";
      "service"; "customer service"; "representative"; "agent"; "talk to someone"];
    ip_phrases := ["can you help me"; "need assistance"; "have a question"; "need help";
      "customer service"; "talk to agent"; "speak to someone"];
    ip_confidence_boost := 1 # 10 |})
].

Record IntentResult := {
  ir_intent : string;
  ir_confidence : Q;
  ir_method : string;
  ir_keywords_matched : list string
}.

(** Score and matched keywords of one category. *)
Definition category_score (message_lower : string) (p : IntentPattern) : Q * list string :=
  let '(score, found) :=
    fold_left (fun '(sc, fs) phrase =>
                 if PyStr.contains (PyStr.lower phrase) message_lower
                 then (sc + (8 # 10), (fs ++ [phrase])%list) else (sc, fs))
              (ip_phrases p) (0, [])%list in
  let '(score, found) :=
    fold_left (fun '(sc, fs) keyword =>
                 if PyStr.contains (PyStr.lower keyword) message_lower
                 then (sc + (3 # 10), (fs ++ [keyword])%list) else (sc, fs))
              (ip_keywords p) (score, found) in
  let score := if Qle_bool score 0 then score else score + ip_confidence_boost p in
  (score, found).

(** [max(values)] of a non-empty score list. *)
Definition max_score (scores : list (string * (Q * list string))) : Q :=
  match scores with
  | [] => 0
  | (_, (s0, _)) :: rest =>
      fold_left (fun m '(_, (s, _)) => if Qle_bool s m then m else s) rest s0
  end.

(** [max(keys, key=...)]: the first key of maximal score. *)
Definition best_intent (scores : list (string * (Q * list string)))
  : option (string * (Q * list string)) :=
  match scores with
  | [] => None
  | e0 :: rest =>
      Some (fold_left (fun best e => if Qle_bool (fst (snd e)) (fst (snd best)) then best else e)
                      rest e0)
  end.

(** The confidence adjustment of the winning category. *)
Definition final_confidence (best_score : Q) : Q :=
  let confidence := Qmin best_score 1 in
  if negb (Qle_bool confidence (8 # 10))
  then Qmin (confidence + (15 # 100)) (95 # 100)
  else confidence.

(** [intent_scores] (with [matched_keywords]) as built by the loop. *)
Definition intent_scores_of (message : string) : list (string * (Q * list string)) :=
  let message_lower := PyStr.strip (PyStr.lower message) in
  map (fun '(name, p) => (name, category_score message_lower p)) intent_patterns.

Definition classify_intent (message : string) : IntentResult :=
  if String.eqb message "" then
    {| ir_intent := "general"; ir_confidence := 1 # 2; ir_method := "local_fallback";
       ir_keywords_matched := [] |}
  else
    let intent_scores := intent_scores_of message in
    if Qeq_bool (max_score intent_scores) 0 then
      {| ir_intent := "general"; ir_confidence := 1 # 2; ir_method := "local_default";
         ir_keywords_matched := [] |}
    else
      match best_intent intent_scores with
      | None =>
          {| ir_intent := "general"; ir_confidence := 1 # 2; ir_method := "local_default";
             ir_keywords_matched := [] |}
      | Some (name, (score, found)) =>
          {| ir_intent := name; ir_confidence := final_confidence score;
             ir_method := "local_keyword_matching"; ir_keywords_matched := found |}
      end.

(** [LocalIntentService.route_message]: the agent key and the
    classification it comes from. *)
Definition route_message (message : string) : string * IntentResult :=
  let intent_data := classify_intent message in
  if String.eqb (ir_intent intent_data) "technical_support" then ("technical_support", intent_data)
  else if String.eqb (ir_intent intent_data) "billing" then ("billing", intent_data)
  else if String.eqb (ir_intent intent_data) "equipment" then ("technical_support", intent_data)
  else ("general", intent_data).

(** [self.intent_patterns[intent]]: the entry under a key of the dict
    (an insertion-ordered association list). *)
Definition pattern_get (patterns : list (string * IntentPattern)) (intent : string)
  : option IntentPattern :=
  option_map snd (List.find (fun np => String.eqb (fst np) intent) patterns).

(** [LocalIntentService.get_supported_intents] *)
Definition get_supported_intents (patterns : list (string * IntentPattern)) : list string :=
  map fst patterns.

(** The entry [add_custom_pattern] creates for a new intent. *)
Definition empty_pattern : IntentPattern :=
  {| ip_keywords := []; ip_phrases := []; ip_confidence_boost := 1 # 10 |}.

(** [LocalIntentService.add_custom_pattern] on [self.intent_patterns];
    [phrases] is [None] when the argument is omitted. *)
Definition add_custom_pattern (patterns : list (string * IntentPattern)) (intent : string)
  (keywords : list string) (phrases : option (list string)) : list (string * IntentPattern) :=
  let patterns :=
    if existsb (fun np => String.eqb (fst np) intent) patterns then patterns
    else (patterns ++ [(intent, empty_pattern)])%list in
  let patterns :=
    map (fun np => if String.eqb (fst np) intent
                   then (fst np, {| ip_keywords := (ip_keywords (snd np) ++ keywords)%list;
                                    ip_phrases := ip_phrases (snd np);
                                    ip_confidence_boost := ip_confidence_boost (snd np) |})
                   else np) patterns in
  match phrases with
  | Some ((_ :: _) as ph) =>
      map (fun np => if String.eqb (fst np) intent
                     then (fst np, {| ip_keywords := ip_keywords (snd np);
                                      ip_phrases := (ip_phrases (snd np) ++ ph)%list;
                                      ip_confidence_boost := ip_confidence_boost (snd np) |})
                     else np) patterns
  | _ => patterns
  end.

End LocalIntent.

(* ------------------------------------------------------------------ *)
(** ** [ConversationMetricsCollector] (conversation_metrics.py)

    Timestamps are [datetime.utcnow()] values, counted in microseconds
    (the resolution of [datetime]); each call of [datetime.utcnow()] is
    a reading of the clock [clock k], [k] counting the readings. *)

Module Metrics.

Local Open Scope Z_scope.

Record ConversationMetric := {
  cm_conversation_id : string;
  cm_user_id : string;
  cm_timestamp : Z;
  cm_metric_type : string;
  cm_value : pyval
}.

(** [timedelta(days=7)] in microseconds. *)
Definition retention : Z := 7 * 24 * 3600 * 1000000.

Fixpoint get (d : list (string * pyval)) (k : string) (dflt : pyval) : pyval :=
  match d with
  | [] => dflt
  | (k', v) :: d' => if String.eqb k k' then v else get d' k dflt
  end.

(** [_record_metric]: [t_record] is the [utcnow()] of the new record,
    [t_prune] the [utcnow()] of the cutoff computation. *)
Definition record_metric (metrics : list ConversationMetric) (conversation_id metric_type : string)
  (value : pyval) (metadata : list (string * pyval)) (t_record t_prune : Z)
  : list ConversationMetric :=
  let uid := match get metadata "user_id" (PStr "unknown") with
             | PStr u => u
             | _ => "unknown"
             end in
  let metric := {| cm_conversation_id := conversation_id; cm_user_id := uid;
                   cm_timestamp := t_record; cm_metric_type := metric_type;
                   cm_value := value |} in
  let metrics := (metrics ++ [metric])%list in
  let cutoff_time := t_prune - retention in
  List.filter (fun m => Z.leb cutoff_time (cm_timestamp m)) metrics.

(** The [metrics_to_track] list of [track_conversation_quality]. *)
Definition metrics_to_track (interaction_data : list (string * pyval)) : list (string * pyval) :=
  [("processing_time", get interaction_data "processing_time_ms" (PInt 0));
   ("is_follow_up", get interaction_data "is_follow_up" (PBool false));
   ("frustration_level", get interaction_data "frustration_level" (PInt 0));
   ("attempt_count", get interaction_data "attempt_count" (PInt 1));
   ("answer_type", get interaction_data "answer_type" (PStr "unknown"));
   ("tone_used", get interaction_data "tone_used" (PStr "default"))].

(** The loop of [track_conversation_quality]; the [k]-th write reads
    the clock at [2k] and [2k+1] (counting from [start]). *)
Fixpoint record_all (clock : nat -> Z) (start : nat) (metrics : list ConversationMetric)
  (conversation_id : string) (fields : list (string * pyval))
  (interaction_data : list (string * pyval)) : list ConversationMetric :=
  match fields with
  | [] => metrics
  | (metric_type, value) :: rest =>
      record_all clock (S (S start))
        (record_metric metrics conversation_id metric_type value interaction_data
                       (clock start) (clock (S start)))
        conversation_id rest interaction_data
  end.

(** [track_conversation_quality] *)
Definition track_conversation_quality (clock : nat -> Z) (metrics : list ConversationMetric)
  (conversation_id : string) (interaction_data : list (string * pyval))
  : list ConversationMetric :=
  record_all clock 0 metrics conversation_id (metrics_to_track interaction_data) interaction_data.

(** Python numbers among the stored values ([bool] is an [int]). *)
Definition num_of (v : pyval) : option Q :=
  match v with
  | PInt z => Some (inject_Z z)
  | PFloat q => Some q
  | PBool b => Some (if b then 1%Q else 0%Q)
  | _ => None
  end.

Definition type_error : exn :=
  Exception "TypeError" "'>' not supported between instances".

(** Python's [==] on stored values. *)
Fixpoint py_eq (a b : pyval) : bool :=
  match a, b with
  | PStr x, PStr y => String.eqb x y
  | PNone, PNone => true
  | PList xs, PList ys =>
      (fix go (xs ys : list pyval) : bool :=
         match xs, ys with
         | [], [] => true
         | x :: xs', y :: ys' => (py_eq x y && go xs' ys')%bool
         | _, _ => false
         end) xs ys
  | _, _ =>
      match num_of a, num_of b with
      | Some p, Some q => Qeq_bool p q
      | _, _ => false
      end
  end.

(** Python's [a > b] on stored values: numbers, strings (code points)
    and lists (lexicographic); other pairs raise [TypeError]. *)
Fixpoint py_gt (a b : pyval) : exn + bool :=
  match a, b with
  | PStr x, PStr y => inr (String.ltb y x)
  | PList xs, PList ys =>
      (fix go (xs ys : list pyval) : exn + bool :=
         match xs, ys with
         | x :: xs', y :: ys' => if py_eq x y then go xs' ys' else py_gt x y
         | _ :: _, [] => inr true
         | [], _ => inr false
         end) xs ys
  | _, _ =>
      match num_of a, num_of b with
      | Some p, Some q => inr (negb (Qle_bool p q))
      | _, _ => inl type_error
      end
  end.

(** A comparison [v <op> n] with an [int] literal [n]: only numbers
    compare with an [int]. *)
Definition py_cmp_int (op : Q -> Q -> bool) (v : pyval) (n : Z) : exn + bool :=
  match num_of v with
  | Some q => inr (op q (inject_Z n))
  | None => inl type_error
  end.

Definition py_lt (p q : Q) : bool := negb (Qle_bool q p).
Definition py_le (p q : Q) : bool := Qle_bool p q.
Definition py_ge (p q : Q) : bool := Qle_bool q p.

Definition ebind {A B} (r : exn + A) (f : A -> exn + B) : exn + B :=
  match r with
  | inl e => inl e
  | inr a => f a
  end.

(** [max(l)]: keeps the first maximum, comparing [item > current]. *)
Definition py_max (l : list pyval) : exn + pyval :=
  match l with
  | [] => inl (Exception "ValueError" "max() arg is an empty sequence")
  | x :: rest =>
      fold_left (fun acc item =>
                   ebind acc (fun m =>
                     ebind (py_gt item m) (fun gt => inr (if gt then item else m))))
                rest (inr x)
  end.

(** The dict built by [_get_conversation_metrics]: the keys
    [interaction_count], [frustration_levels], [answer_types] and, once
    [setdefault] has run, [processing_times]. *)
Record ConvMetrics := {
  interaction_count : Z;
  frustration_levels : list pyval;
  answer_types : list pyval;
  processing_times : option (list pyval)
}.

(** [conv_metrics.get(key, default)] *)
Definition conv_get (c : ConvMetrics) (k : string) (dflt : pyval) : pyval :=
  if String.eqb k "interaction_count" then PInt (interaction_count c)
  else if String.eqb k "frustration_levels" then PList (frustration_levels c)
  else if String.eqb k "answer_types" then PList (answer_types c)
  else if String.eqb k "processing_times" then
    match processing_times c with
    | Some l => PList l
    | None => dflt
    end
  else dflt.

(** One iteration of the loop of [_get_conversation_metrics]. *)
Definition conv_metrics_step (conversation_id : string) (c : ConvMetrics) (m : ConversationMetric)
  : ConvMetrics :=
  if String.eqb (cm_conversation_id m) conversation_id then
    let c := {| interaction_count := interaction_count c + 1;
                frustration_levels := frustration_levels c;
                answer_types := answer_types c;
                processing_times := processing_times c |} in
    if String.eqb (cm_metric_type m) "frustration_level" then
      {| interaction_count := interaction_count c;
         frustration_levels := (frustration_levels c ++ [cm_value m])%list;
         answer_types := answer_types c;
         processing_times := processing_times c |}
    else if String.eqb (cm_metric_type m) "answer_type" then
      {| interaction_count := interaction_count c;
         frustration_levels := frustration_levels c;
         answer_types := (answer_types c ++ [cm_value m])%list;
         processing_times := processing_times c |}
    else if String.eqb (cm_metric_type m) "processing_time" then
      {| interaction_count := interaction_count c;
         frustration_levels := frustration_levels c;
         answer_types := answer_types c;
         processing_times := Some (default [] (processing_times c) ++ [cm_value m])%list |}
    else c
  else c.

(** [_get_conversation_metrics] *)
Definition get_conversation_metrics (metrics : list ConversationMetric) (conversation_id : string)
  : ConvMetrics :=
  fold_left (conv_metrics_step conversation_id) metrics
    {| interaction_count := 0; frustration_levels := []; answer_types := [];
       processing_times := None |}.

(** [_predict_outcome]: [frustration_levels] is always a list in the
    dict it reads, so the other branch (not reached) raises. *)
Definition predict_outcome (conv_metrics : ConvMetrics) : exn + string :=
  let frustration_levels := conv_get conv_metrics "frustration_levels" (PList [PInt 0]) in
  let attempt_count := conv_get conv_metrics "attempt_count" (PInt 1) in
  ebind (match frustration_levels with
         | PList [] => inr (PInt 0)
         | PList l => py_max l
         | _ => inl type_error
         end) (fun max_frustration =>
  ebind (py_cmp_int py_ge max_frustration 7) (fun c1 =>
  ebind (if c1 then inr true else py_cmp_int py_ge attempt_count 4) (fun esc =>
  if esc then inr "likely_escalation"
  else
    ebind (py_cmp_int py_lt max_frustration 3) (fun c2 =>
    ebind (if c2 then py_cmp_int py_le attempt_count 2 else inr false) (fun res =>
    if res then inr "likely_resolved" else inr "ongoing_assistance"))))).

(** [get_conversation_insights] *)
Definition get_conversation_insights (metrics : list ConversationMetric) (conversation_id : string)
  : exn + list (string * pyval) :=
  let conv_metrics := get_conversation_metrics metrics conversation_id in
  ebind (predict_outcome conv_metrics) (fun outcome =>
  inr [("conversation_id", PStr conversation_id);
       ("total_interactions", conv_get conv_metrics "interaction_count" (PInt 0));
       ("average_response_time", conv_get conv_metrics "avg_processing_time" (PInt 0));
       ("frustration_progression", conv_get conv_metrics "frustration_levels" (PList []));
       ("resolution_attempts", conv_get conv_metrics "attempt_count" (PInt 0));
       ("primary_tone", conv_get conv_metrics "primary_tone" (PStr "unknown"));
       ("answer_types_used", conv_get conv_metrics "answer_types" (PList []));
       ("outcome_prediction", PStr outcome)]).




End Metrics.

(* ------------------------------------------------------------------ *)
(** ** Loading the corpus: [ChatService.__init__] and
    [SemanticKnowledgeBase.__init__] *)

(** What [open(kb_path)] followed by [json.load(f)["knowledge_base"]["agents"]]
    yields. *)
Inductive KBFile :=
| FileMissing
| FileAgents (agents : KB).

(** The [kb] of [ChatService.__init__]: [FileNotFoundError] falls back
    to three agents with no categories. *)
Definition chat_service_load_kb (f : KBFile) : exn + KB :=
  match f with
  | FileMissing =>
      inr [("tech_support", {| agent_name := None; categories := [] |});
           ("billing", {| agent_name := None; categories := [] |});
           ("general", {| agent_name := None; categories := [] |})]
  | FileAgents agents => inr agents
  end.

(** One entry of [SemanticKnowledgeBase.responses]. *)
Record SemanticEntry := {
  se_agent : string;
  se_category : string;
  se_content : string;
  se_keywords : list string;
  se_type : string
}.

(** The loops of [_load_and_embed]. *)
Definition semantic_entries (agents : KB) : list SemanticEntry :=
  flat_map (fun '(a, akb) =>
    flat_map (fun '(c, resps) =>
      map (fun r => {| se_agent := a; se_category := c; se_content := kb_content r;
                       se_keywords := kb_keywords r; se_type := kb_type r |}) resps)
      (categories akb)) agents.

(** [SemanticKnowledgeBase.__init__]: [_load_and_embed] opens the file
    with no handler; [model.encode([])] gives an array of shape [(0,)],
    so [_build_faiss_index]'s [self.embeddings.shape[1]] raises
    [IndexError] on an empty corpus. *)
Definition semantic_kb_init (f : KBFile) : exn + list SemanticEntry :=
  match f with
  | FileMissing => inl (Exception "FileNotFoundError" "No such file or directory")
  | FileAgents agents =>
      match semantic_entries agents with
      | [] => inl (Exception "IndexError" "tuple index out of range")
      | es => inr es
      end
  end.

(* ------------------------------------------------------------------ *)
(** ** Hybrid score of [SemanticKnowledgeBase.hybrid_search] *)

(** The exact value of [alpha * r['semantic_score'] + (1 - alpha) *
    r['keyword_score']], with no rounding. *)
Definition hybrid_score (alpha semantic_score keyword_score : Q) : Q :=
  (alpha * semantic_score + (1 - alpha) * keyword_score)%Q.

(** The same line as Python evaluates it, in binary64: [alpha * s],
    then [1 - alpha], then [(1 - alpha) * w], then the sum, each
    operation rounded to the nearest double. *)
Definition hybrid_score_float (alpha semantic_score keyword_score : float) : float :=
  (alpha * semantic_score + (1 - alpha) * keyword_score)%float.

(** The ranking boosts applied after it:
    [r['hybrid_score'] *= (1 + (meta_val * (boost - 1)))]. *)
Definition apply_boosts (score : Q) (boosts : list (Q * Q)) : Q :=
  fold_left (fun sc '(meta_val, boost) => (sc * (1 + meta_val * (boost - 1)))%Q) boosts score.

(** ** The candidate loop of [SemanticKnowledgeBase.hybrid_search]

    [sem_results] is what [self.semantic_search(query, top_k*4)]
    returned (response dict and semantic score per candidate) and
    [keyword_score] the result of [self.keyword_score(query, resp)]
    (RapidFuzz, outside this model, which raises [KeyError] on a dict
    without ['keywords']).  [top_k] is the non-negative slice bound. *)

Module Hybrid.

(** A stored response: an insertion-ordered dict. *)
Definition Resp := list (string * pyval).

(** [resp.get(key)] / [key in resp] *)
Definition dict_get (d : Resp) (k : string) : option pyval :=
  option_map snd (List.find (fun kv => String.eqb (fst kv) k) d).

(** [x in container] for the values a response holds. *)
Definition py_in (x container : pyval) : exn + bool :=
  match container with
  | PList l => inr (existsb (Metrics.py_eq x) l)
  | PStr s =>
      match x with
      | PStr t => inr (PyStr.contains t s)
      | _ => inl (Exception "TypeError" "'in <string>' requires string as left operand")
      end
  | _ => inl (Exception "TypeError" "argument of type is not iterable")
  end.

(** [any(tag in container for tag in val)], stopping at the first hit. *)
Fixpoint any_in (tags : list pyval) (container : pyval) : exn + bool :=
  match tags with
  | [] => inr false
  | t :: ts => Metrics.ebind (py_in t container) (fun b => if b then inr true else any_in ts container)
  end.

(** The filter loop: [passed] for one response. *)
Fixpoint passes (filters : list (string * pyval)) (resp : Resp) : exn + bool :=
  match filters with
  | [] => inr true
  | (key, val) :: fs =>
      match dict_get resp key with
      | None => inr false
      | Some v =>
          match val with
          | PList tags => Metrics.ebind (any_in tags v) (fun b => if b then passes fs resp else inr false)
          | _ => if Metrics.py_eq v val then passes fs resp else inr false
          end
      end
  end.

(** The boosts that apply to a response: [(meta_val, boost)] for each
    key of [ranking_boosts] whose value in the response is an [int] or
    a [float] ([bool] included, as [isinstance] counts it an [int]). *)
Definition boost_pairs (resp : Resp) (ranking_boosts : list (string * Q)) : list (Q * Q) :=
  flat_map (fun (kb : string * Q) =>
    match dict_get resp (fst kb) with
    | Some v =>
        match Metrics.num_of v with
        | Some m => [(m, snd kb)]
        | None => []
        end
    | None => []
    end) ranking_boosts.

(** A candidate [r] once scored. *)
Record HResult := {
  hr_response : Resp;
  hr_semantic_score : Q;
  hr_keyword_score : Q;
  hr_hybrid_score : Q
}.

(** The loop building [filtered_results]. *)
Fixpoint collect (keyword_score : Resp -> exn + Q) (alpha : Q)
    (filters : list (string * pyval)) (ranking_boosts : list (string * Q))
    (sem_results : list (Resp * Q)) : exn + list HResult :=
  match sem_results with
  | [] => inr []
  | (resp, sem) :: rest =>
      Metrics.ebind (passes filters resp) (fun passed =>
        if passed then
          Metrics.ebind (keyword_score resp) (fun kw =>
            let h := apply_boosts (hybrid_score alpha sem kw) (boost_pairs resp ranking_boosts) in
            Metrics.ebind (collect keyword_score alpha filters ranking_boosts rest) (fun rs =>
              inr ({| hr_response := resp; hr_semantic_score := sem;
                      hr_keyword_score := kw; hr_hybrid_score := h |} :: rs)))
        else collect keyword_score alpha filters ranking_boosts rest)
  end.

(** [list.sort(key=..., reverse=True)]: stable, so results with equal
    scores keep their order; written as an insertion sort. *)
Fixpoint insert_desc (x : HResult) (l : list HResult) : list HResult :=
  match l with
  | [] => [x]
  | y :: ys =>
      if Qle_bool (hr_hybrid_score x) (hr_hybrid_score y) then y :: insert_desc x ys
      else x :: l
  end.

Definition sort_desc (l : list HResult) : list HResult :=
  fold_left (fun acc x => insert_desc x acc) l [].

(** [hybrid_search] after the semantic search. *)
Definition hybrid_search (keyword_score : Resp -> exn + Q) (sem_results : list (Resp * Q))
    (top_k : nat) (alpha : Q) (filters : list (string * pyval))
    (ranking_boosts : list (string * Q)) : exn + list HResult :=
  Metrics.ebind (collect keyword_score alpha filters ranking_boosts sem_results)
    (fun filtered_results => inr (firstn top_k (sort_desc filtered_results))).

End Hybrid.

(* ================================================================== *)
(** * Properties *)

Open Scope Z_scope.

(** ** Frustration level *)

Lemma indicator_fold_ge (msg : string) (pats : list regex) (z : Z) :
  z <= fold_left (fun sc p => if re_search p msg then sc + 2 else sc) pats z.
Proof.
  revert z; induction pats as [|p pats IH]; intros z; simpl; [lia|].
  destruct (re_search p msg).
  - specialize (IH (z + 2)); lia.
  - apply IH.
Qed.

Lemma detect_frustration_level_range (message : string) (context : ConversationContext) :
  0 <= frustration_level context <= 10 ->
  frustration_level context <= detect_frustration_level message context <= 10.
Proof.
  intros Hr. unfold detect_frustration_level.
  pose proof (indicator_fold_ge (PyStr.lower message) frustration_indicators
                (frustration_level context)) as Hf.
  destruct (caps_ratio_high message), (re_search multi_punct message),
           (Z.ltb 2 (attempt_count context)); lia.
Qed.

(** [update_context] on one context object keeps the level in [0,10]
    and never lowers it. *)
Lemma update_context_obj_frustration (ctx : ConversationContext) (message : string)
  (sol : option string) (now : string) :
  0 <= frustration_level ctx <= 10 ->
  frustration_level ctx <= frustration_level (update_context_obj ctx message sol now) <= 10.
Proof.
  intros Hr. unfold update_context_obj.
  destruct (detect_follow_up message ctx) eqn:Hfu.
  - destruct (last_solution_offered ctx) as [s|]; simpl;
      repeat match goal with |- context [if ?b then _ else _] => destruct b end; simpl;
      match goal with
      | |- context [detect_frustration_level ?m ?c] =>
          pose proof (detect_frustration_level_range m c Hr) as Hd
      end; cbn [frustration_level] in Hd; lia.
  - destruct (truthy_str sol); simpl; lia.
Qed.

(** A conversation: the turns fed to [update_context], each with the
    solution summary offered and the time of the update. *)
Fixpoint run_updates (ctx : ConversationContext) (turns : list (string * option string * string))
  : ConversationContext :=
  match turns with
  | [] => ctx
  | (m, sol, now) :: rest => run_updates (update_context_obj ctx m sol now) rest
  end.

(** ** Attempt count *)

Lemma update_context_obj_attempts (ctx : ConversationContext) (message : string)
  (sol : option string) (now : string) :
  attempt_count (update_context_obj ctx message sol now) =
  attempt_count ctx + (if detect_follow_up message ctx then 1 else 0).
Proof.
  unfold update_context_obj.
  destruct (detect_follow_up message ctx) eqn:Hfu.
  - destruct (last_solution_offered ctx) as [s|]; simpl;
      repeat match goal with |- context [if ?b then _ else _] => destruct b end; simpl; lia.
  - destruct (truthy_str sol); simpl; lia.
Qed.

(** C2: for a context whose level is in [0,10], [detect_frustration_level]
    returns a level in [0,10] that is at least the current one; over any
    sequence of updates the level stays in [0,10] and never decreases. *)
Theorem detect_frustration_level_monotone_clamped (message : string)
  (context : ConversationContext) :
  0 <= frustration_level context <= 10 ->
  (0 <= detect_frustration_level message context <= 10 /\
   frustration_level context <= detect_frustration_level message context) /\
  (forall turns, frustration_level context <= frustration_level (run_updates context turns) <= 10).
Proof.
  intros Hr. split.
  - pose proof (detect_frustration_level_range message context Hr); lia.
  - intros turns. revert context Hr. induction turns as [|[[m sol] now] rest IH];
      intros context Hr; simpl; [lia|].
    pose proof (update_context_obj_frustration context m sol now Hr) as Hu.
    assert (Hr' : 0 <= frustration_level (update_context_obj context m sol now) <= 10) by lia.
    specialize (IH _ Hr'). lia.
Qed.

Lemma detect_frustration_level_monotone_clamped_witness :
  let ctx := new_context "c1" "u1" in
  let msg := "THIS IS REALLY FRUSTRATING!!" in
  0 <= frustration_level ctx <= 10 /\
  ((0 <= detect_frustration_level msg ctx <= 10 /\
    frustration_level ctx <= detect_frustration_level msg ctx) /\
   (forall turns, frustration_level ctx <= frustration_level (run_updates ctx turns) <= 10)).
Proof.
  intros ctx msg.
  assert (H : 0 <= frustration_level ctx <= 10) by (vm_compute; split; discriminate).
  exact (conj H (detect_frustration_level_monotone_clamped msg ctx H)).
Defined.

(** C6: on an existing context, [update_context] adds exactly 1 to
    [attempt_count] when [detect_follow_up] holds for the message and the
    context, and leaves it unchanged otherwise; it never decreases. *)
Theorem update_context_attempt_count (svc : ChatService) (cid message : string)
  (solution_offered : option string) (now : string) (context : ConversationContext) :
  conversation_contexts svc !! cid = Some context ->
  exists context' svc',
    update_context svc cid message solution_offered now = (Some context', svc') /\
    conversation_contexts svc' !! cid = Some context' /\
    attempt_count context' =
      attempt_count context + (if detect_follow_up message context then 1 else 0) /\
    attempt_count context <= attempt_count context'.
Proof.
  intros Hc. unfold update_context. rewrite Hc.
  eexists _, _. split; [reflexivity|]. split.
  - cbn [set_contexts conversation_contexts]. apply lookup_insert_eq.
  - rewrite update_context_obj_attempts.
    destruct (detect_follow_up message context); split; lia.
Qed.

Definition svc_demo (ctxs : gmap string ConversationContext) : ChatService :=
  {| conversations := ∅; conversation_contexts := ctxs; kb := [];
     llm_available := true; intent_service_available := true |}.

(** A context right after a solution was offered. *)
Definition ctx_after_solution : ConversationContext :=
  {| conversation_id := "c1"; user_id := "c1"; current_state := PROBLEM_SOLVING;
     last_solution_offered := Some "Try restarting the modem"; attempt_count := 0;
     frustration_level := 0; topic := None; preferred_tone := "helpful_friendly";
     resolution_attempts := [] |}.

Lemma update_context_attempt_count_witness :
  (conversation_contexts (svc_demo {["c1" := ctx_after_solution]}) !! "c1" = Some ctx_after_solution) /\
  (detect_follow_up "that didn't work" ctx_after_solution = true) /\
  exists context' svc',
    update_context (svc_demo {["c1" := ctx_after_solution]}) "c1" "that didn't work" None "t0"
      = (Some context', svc') /\
    conversation_contexts svc' !! "c1" = Some context' /\
    attempt_count context' = attempt_count ctx_after_solution +
      (if detect_follow_up "that didn't work" ctx_after_solution then 1 else 0) /\
    attempt_count ctx_after_solution <= attempt_count context'.
Proof.
  assert (H : conversation_contexts (svc_demo {["c1" := ctx_after_solution]}) !! "c1"
              = Some ctx_after_solution) by (vm_compute; reflexivity).
  split; [exact H|]. split; [vm_compute; reflexivity|].
  exact (update_context_attempt_count _ "c1" "that didn't work" None "t0" _ H).
Defined.

(** C10: without a context for the id, [update_context] returns [None]
    and leaves the whole service state as it was. *)
Theorem update_context_missing_noop (svc : ChatService) (cid message : string)
  (solution_offered : option string) (now : string) :
  conversation_contexts svc !! cid = None ->
  update_context svc cid message solution_offered now = (None, svc).
Proof.
  intros Hc. unfold update_context. rewrite Hc. reflexivity.
Qed.

Lemma update_context_missing_noop_witness :
  conversation_contexts (svc_demo {["c1" := ctx_after_solution]}) !! "c2" = None /\
  update_context (svc_demo {["c1" := ctx_after_solution]}) "c2" "hello" (Some "Try it") "t0"
    = (None, svc_demo {["c1" := ctx_after_solution]}).
Proof.
  assert (H : conversation_contexts (svc_demo {["c1" := ctx_after_solution]}) !! "c2" = None)
    by (vm_compute; reflexivity).
  exact (conj H (update_context_missing_noop _ "c2" "hello" (Some "Try it") "t0" H)).
Defined.

(** ** Exact/overlap retrieval *)

Lemma search_categories_skip (message : string) (pre post : list (string * list KBResponse))
  (bm : option KBResponse) (bs : nat) :
  Forall (fun c => category_matches (fst c) message = false \/ snd c = []) pre ->
  exists bm' bs', search_categories message (pre ++ post)%list bm bs =
                  search_categories message post bm' bs'.
Proof.
  revert bm bs. induction pre as [|[n rs] pre IH]; intros bm bs Hpre; simpl.
  - eauto.
  - inversion Hpre as [|? ? Hc Hpre']; subst. simpl in Hc.
    assert (Hnil : (if category_matches n message then rs else []) = []).
    { destruct Hc as [-> | ->]; [reflexivity|]. destruct (category_matches n message); reflexivity. }
    rewrite Hnil.
    destruct (score_responses (tokenize message) rs bm bs) as [bm1 bs1].
    apply IH; exact Hpre'.
Qed.

Lemma tokens_meet_subset (a b : list string) :
  b <> [] -> (forall t, In t b -> In t a) -> tokens_meet a b = true.
Proof.
  intros Hb Hsub. destruct b as [|t b]; [contradiction|].
  assert (Ha : In t a) by (apply Hsub; left; reflexivity).
  unfold tokens_meet. apply existsb_exists. exists t. split; [exact Ha|].
  simpl. rewrite String.eqb_refl. reflexivity.
Qed.

(** The first pass's short-circuit, as the code does it: the first
    category (in the knowledge base's order) whose name matches the
    message and that has an entry gives its first entry. *)
Lemma search_agent_kb_first_match (kb0 : KB) (agent message cat_name : string)
  (pre post : list (string * list KBResponse)) (r0 : KBResponse) (rs : list KBResponse) :
  agent_categories kb0 agent = (pre ++ (cat_name, r0 :: rs) :: post)%list ->
  category_matches cat_name message = true ->
  Forall (fun c => category_matches (fst c) message = false \/ snd c = []) pre ->
  search_agent_kb kb0 agent message = Some r0.
Proof.
  intros Hcats Hm Hpre. unfold search_agent_kb. rewrite Hcats.
  destruct (search_categories_skip message pre ((cat_name, r0 :: rs) :: post) None 0%nat Hpre)
    as (bm' & bs' & ->).
  simpl. rewrite Hm. reflexivity.
Qed.

Definition resp_outage : KBResponse :=
  {| kb_content := "There is a known outage in your area."; kb_type := "kb_exact";
     kb_keywords := ["outage"; "down"] |}.

Definition resp_speed : KBResponse :=
  {| kb_content := "Try restarting your modem to restore full speed."; kb_type := "kb_exact";
     kb_keywords := ["slow"; "speed"] |}.

(** A [tech_support] knowledge base with two categories sharing the
    token [internet]. *)
Definition kb_two_categories : KB :=
  [("tech_support", {| agent_name := Some "Tech Support";
                       categories := [("internet_outage", [resp_outage]);
                                      ("internet_speed", [resp_speed])] |})].

(** C3 (as the code behaves): for a message made only of tokens of a
    category's name, [search_agent_kb] returns that category's first
    entry when the category has one and no category before it in the
    knowledge base's order matches the message with an entry. *)
Theorem search_agent_kb_category_tokens (kb0 : KB) (agent message cat_name : string)
  (pre post : list (string * list KBResponse)) (r0 : KBResponse) (rs : list KBResponse) :
  agent_categories kb0 agent = (pre ++ (cat_name, r0 :: rs) :: post)%list ->
  tokenize message <> [] ->
  (forall t, In t (tokenize message) -> In t (tokenize cat_name)) ->
  Forall (fun c => category_matches (fst c) message = false \/ snd c = []) pre ->
  search_agent_kb kb0 agent message = Some r0.
Proof.
  intros Hcats Hne Hsub Hpre.
  apply (search_agent_kb_first_match kb0 agent message cat_name pre post r0 rs Hcats); [|exact Hpre].
  unfold category_matches. rewrite (tokens_meet_subset _ _ Hne Hsub).
  rewrite !orb_true_r. reflexivity.
Qed.

Lemma search_agent_kb_category_tokens_witness :
  let kb1 := [("tech_support", {| agent_name := None;
                                  categories := [("internet_speed", [resp_speed]);
                                                 ("internet_outage", [resp_outage])] |})] in
  agent_categories kb1 "tech_support" =
    ([] ++ ("internet_speed", [resp_speed]) :: [("internet_outage", [resp_outage])])%list /\
  search_agent_kb kb1 "tech_support" "internet speed" = Some resp_speed.
Proof.
  intros kb1.
  assert (Hc : agent_categories kb1 "tech_support" =
    ([] ++ ("internet_speed", [resp_speed]) :: [("internet_outage", [resp_outage])])%list)
    by reflexivity.
  split; [exact Hc|].
  apply (search_agent_kb_category_tokens kb1 "tech_support" "internet speed" "internet_speed"
           [] [("internet_outage", [resp_outage])] resp_speed [] Hc).
  - vm_compute. discriminate.
  - vm_compute. intros t [<- | [<- | []]]; auto.
  - constructor.
Defined.

(** C3 as stated fails: the message "internet speed" is made of the
    tokens of the name [internet_speed] only (it is not made of those of
    [internet_outage]), yet the earlier category [internet_outage]
    shares the token [internet] and its first entry is returned. *)
Lemma search_agent_kb_category_order_counterexample :
  tokenize "internet speed" = tokenize "internet_speed" /\
  ~ (forall t, In t (tokenize "internet speed") -> In t (tokenize "internet_outage")) /\
  search_agent_kb kb_two_categories "tech_support" "internet speed" = Some resp_outage /\
  resp_outage <> resp_speed.
Proof.
  split; [vm_compute; reflexivity|].
  split; [vm_compute; intros H; specialize (H "speed" (or_intror (or_introl eq_refl)));
          destruct H as [H | [H | []]]; discriminate|].
  split; [vm_compute; reflexivity|].
  intros H. inversion H.
Qed.

(** ** Local keyword classifier *)

Section LocalIntentProps.
Import LocalIntent.
Local Open Scope Q_scope.

(** C7: with a maximal category score of 0 the classifier answers
    [general] with confidence 0.5; otherwise the winner's score is capped
    at 1.0, and when that capped confidence exceeds 0.8 the result is it
    plus 0.15, capped at 0.95, so it never exceeds 0.95. *)
Theorem classify_intent_confidence (message : string) :
  (max_score (intent_scores_of message) == 0 ->
     ir_intent (classify_intent message) = "general" /\
     ir_confidence (classify_intent message) = 1 # 2) /\
  (~ (max_score (intent_scores_of message) == 0) ->
     exists name score found,
       best_intent (intent_scores_of message) = Some (name, (score, found)) /\
       ir_intent (classify_intent message) = name /\
       (8 # 10 < Qmin score 1 ->
          ir_confidence (classify_intent message) = Qmin (Qmin score 1 + (15 # 100)) (95 # 100) /\
          ir_confidence (classify_intent message) <= 95 # 100) /\
       (Qmin score 1 <= 8 # 10 ->
          ir_confidence (classify_intent message) = Qmin score 1)).
Proof.
  split.
  - intros Hz. unfold classify_intent.
    destruct (String.eqb message ""); [split; reflexivity|].
    apply Qeq_bool_iff in Hz. rewrite Hz. split; reflexivity.
  - intros Hnz. unfold classify_intent.
    destruct (String.eqb message "") eqn:He.
    { apply String.eqb_eq in He. subst message. exfalso. apply Hnz. vm_compute. reflexivity. }
    assert (Hb : Qeq_bool (max_score (intent_scores_of message)) 0 = false).
    { destruct (Qeq_bool _ _) eqn:Hq; [|reflexivity]. apply Qeq_bool_iff in Hq. contradiction. }
    rewrite Hb.
    destruct (best_intent (intent_scores_of message)) as [[name [score found]]|] eqn:Hbest.
    2:{ unfold best_intent, intent_scores_of in Hbest. simpl in Hbest. discriminate. }
    exists name, score, found. split; [reflexivity|]. split; [reflexivity|].
    simpl. unfold final_confidence. split.
    + intros Hgt.
      assert (Hle : Qle_bool (Qmin score 1) (8 # 10) = false).
      { destruct (Qle_bool _ _) eqn:Hq; [|reflexivity].
        apply Qle_bool_iff in Hq. exfalso. apply (Qlt_not_le _ _ Hgt Hq). }
      rewrite Hle. simpl. split; [reflexivity|]. apply Q.le_min_r.
    + intros Hle. apply Qle_bool_iff in Hle. rewrite Hle. reflexivity.
Qed.

End LocalIntentProps.

(** ** Hybrid score *)

(** C8 (as amended): for fixed scores [s] and [w] in [0,1], the exact
    value of the hybrid-score formula is non-decreasing in [alpha] over
    [0,1] when [s > w] and non-increasing when [s <= w]. *)
Theorem hybrid_score_monotone_in_alpha (s w a1 a2 : Q) :
  (0 <= s <= 1)%Q -> (0 <= w <= 1)%Q -> (0 <= a1)%Q -> (a1 <= a2)%Q -> (a2 <= 1)%Q ->
  ((w < s)%Q -> (hybrid_score a1 s w <= hybrid_score a2 s w)%Q) /\
  ((s <= w)%Q -> (hybrid_score a2 s w <= hybrid_score a1 s w)%Q).
Proof.
  intros Hs Hw H1 H12 H2. unfold hybrid_score. split; intros Hsw; nra.
Qed.

Lemma hybrid_score_monotone_in_alpha_witness :
  (hybrid_score (1 # 2) (9 # 10) (1 # 10) <= hybrid_score (7 # 10) (9 # 10) (1 # 10))%Q.
Proof.
  refine (proj1 (hybrid_score_monotone_in_alpha (9 # 10) (1 # 10) (1 # 2) (7 # 10)
                   _ _ _ _ _) _);
    unfold Qle, Qlt; simpl; try split; lia.
Defined.

(** C8 counterexample: the score [hybrid_search] computes in binary64 is
    not monotone in [alpha].  With [s = 11184811/16777216] (2/3 rounded
    to single precision, 0.6666666865348816) above [w = 2/3]
    (0.6666666666666666), raising [alpha] from [15/1000000] (1.5e-05)
    to [15/1000000 + 1/1000000000] lowers the computed score from
    0.6666666666669647 to 0.6666666666669646. *)
Lemma hybrid_score_float_not_monotone_counterexample :
  ~ (forall s w a1 a2 : float,
       (0 <=? w)%float = true -> (w <? s)%float = true -> (s <=? 1)%float = true ->
       (0 <=? a1)%float = true -> (a1 <=? a2)%float = true -> (a2 <=? 1)%float = true ->
       (hybrid_score_float a1 s w <=? hybrid_score_float a2 s w)%float = true).
Proof.
  intros H.
  specialize (H (11184811 / 16777216)%float (2 / 3)%float (15 / 1000000)%float
                (15 / 1000000 + 1 / 1000000000)%float).
  assert (E : (hybrid_score_float (15 / 1000000) (11184811 / 16777216) (2 / 3) <=?
               hybrid_score_float (15 / 1000000 + 1 / 1000000000) (11184811 / 16777216) (2 / 3))%float
              = false) by (vm_compute; reflexivity).
  rewrite E in H.
  assert (C : false = true)
    by (apply H; vm_compute; reflexivity).
  discriminate C.
Qed.

Lemma classify_intent_confidence_witness :
  ~ (LocalIntent.max_score (LocalIntent.intent_scores_of "my internet is down") == 0)%Q /\
  LocalIntent.ir_intent (LocalIntent.classify_intent "my internet is down") = "technical_support".
Proof.
  assert (H : ~ (LocalIntent.max_score (LocalIntent.intent_scores_of "my internet is down") == 0)%Q)
    by (intro H; vm_compute in H; discriminate).
  split; [exact H|].
  destruct (proj2 (classify_intent_confidence "my internet is down") H)
    as (name & score & found & Hb & Hi & _).
  rewrite Hi. vm_compute in Hb. inversion Hb. reflexivity.
Defined.

(** ** Metric retention *)

Lemma record_metric_retained (metrics : list Metrics.ConversationMetric)
  (cid metric_type : string) (value : pyval) (metadata : list (string * pyval))
  (t_record t_prune : Z) :
  Forall (fun m => t_prune - Metrics.retention <= Metrics.cm_timestamp m)
    (Metrics.record_metric metrics cid metric_type value metadata t_record t_prune).
Proof.
  unfold Metrics.record_metric. apply List.Forall_forall. intros m Hm.
  apply filter_In in Hm as [_ Hm]. apply Z.leb_le in Hm. exact Hm.
Qed.

(** C9: after a call of [_record_metric], and after the six writes of
    [track_conversation_quality], no record is older than the 7-day
    horizon computed at the (last) write. *)
Theorem record_metric_prunes_old (clock : nat -> Z) (metrics : list Metrics.ConversationMetric)
  (cid metric_type : string) (value : pyval) (metadata : list (string * pyval))
  (t_record t_prune : Z) :
  Forall (fun m => t_prune - Metrics.retention <= Metrics.cm_timestamp m)
    (Metrics.record_metric metrics cid metric_type value metadata t_record t_prune) /\
  Forall (fun m => clock 11%nat - Metrics.retention <= Metrics.cm_timestamp m)
    (Metrics.track_conversation_quality clock metrics cid metadata).
Proof.
  split; [apply record_metric_retained|].
  unfold Metrics.track_conversation_quality, Metrics.metrics_to_track.
  cbn [Metrics.record_all]. apply record_metric_retained.
Qed.

(** ** The coordinator *)

(** [spec I m P]: from a state satisfying [I], [m] ends in a state
    satisfying [I], and a normal result satisfies [P]. *)
Definition spec {A} (I : ChatService -> Prop) (m : PyM A) (P : A -> Prop) : Prop :=
  forall s, I s -> I (snd (m s)) /\ (forall a, fst (m s) = inr a -> P a).

Section SpecRules.
Context (I : ChatService -> Prop).

Lemma spec_ret {A} (a : A) (P : A -> Prop) : P a -> spec I (ret a) P.
Proof. intros Ha s Hs. split; [exact Hs|]. intros a' H. inversion H; subst; exact Ha. Qed.

Lemma spec_bind {A B} (m : PyM A) (f : A -> PyM B) (P : A -> Prop) (Q : B -> Prop) :
  spec I m P -> (forall a, P a -> spec I (f a) Q) -> spec I (bind m f) Q.
Proof.
  intros Hm Hf s Hs. unfold bind. specialize (Hm s Hs).
  destruct (m s) as [[e|a] s'] eqn:E; simpl in *.
  - split; [tauto|]. intros b H; discriminate.
  - destruct Hm as [Hs' Ha]. exact (Hf a (Ha a eq_refl) s' Hs').
Qed.

Lemma spec_try_except {A} (body : PyM A) (h : exn -> PyM A) (P : A -> Prop) :
  spec I body P -> (forall e, spec I (h e) P) -> spec I (try_except body h) P.
Proof.
  intros Hb Hh s Hs. unfold try_except. specialize (Hb s Hs).
  destruct (body s) as [[[c m|c]|a] s'] eqn:E; simpl in *.
  - exact (Hh _ s' (proj1 Hb)).
  - split; [tauto|]. intros a H; discriminate.
  - exact Hb.
Qed.

Lemma spec_gets {A} (f : ChatService -> A) (P : A -> Prop) :
  (forall s, I s -> P (f s)) -> spec I (gets f) P.
Proof. intros H s Hs. split; [exact Hs|]. intros a E. inversion E; subst. auto. Qed.

Lemma spec_lift {A} (r : exn + A) (P : A -> Prop) :
  (forall a, r = inr a -> P a) -> spec I (lift r) P.
Proof. intros H s Hs. split; [exact Hs|]. exact H. Qed.

Lemma spec_raise {A} (e : exn) (P : A -> Prop) : spec I (raise e) P.
Proof. intros s Hs. split; [exact Hs|]. intros a H; discriminate. Qed.

Lemma spec_modify (f : ChatService -> ChatService) :
  (forall s, I s -> I (f s)) -> spec I (modify f) (fun _ => True).
Proof. intros H s Hs. split; [exact (H s Hs)|]. auto. Qed.

Lemma spec_weaken {A} (m : PyM A) (P Q : A -> Prop) :
  spec I m P -> (forall a, P a -> Q a) -> spec I m Q.
Proof. intros Hm HPQ s Hs. destruct (Hm s Hs) as [H1 H2]. split; auto. Qed.

End SpecRules.

(** The knowledge base is never changed by a turn. *)
Definition kb_is (K : KB) (s : ChatService) : Prop := kb s = K.

Definition kb_types (K : KB) : list string :=
  flat_map (fun '(_, akb) => flat_map (fun '(_, rs) => map kb_type rs) (categories akb)) K.

Lemma score_responses_in (toks : list string) (rs : list KBResponse) bm bs r :
  fst (score_responses toks rs bm bs) = Some r -> bm = Some r \/ In r rs.
Proof.
  revert bm bs. induction rs as [|x rs IH]; intros bm bs H; simpl in *; [auto|].
  destruct (Nat.ltb bs (response_score toks x)).
  - destruct (IH _ _ H) as [E|E]; [inversion E; subst; auto|auto].
  - destruct (IH _ _ H); auto.
Qed.

Lemma search_categories_in (message : string) (cats : list (string * list KBResponse)) bm bs r :
  search_categories message cats bm bs = Some r ->
  bm = Some r \/ In r (flat_map snd cats).
Proof.
  revert bm bs. induction cats as [|[n rs] cats IH]; intros bm bs H; simpl in *; [auto|].
  destruct (category_matches n message) eqn:Hm.
  - destruct rs as [|r0 rs'].
    + simpl in H. destruct (IH _ _ H) as [E|E]; [|auto using in_or_app].
      simpl in E. auto.
    + inversion H; subst. right. left. reflexivity.
  - destruct (score_responses (tokenize message) rs bm bs) as [bm1 bs1] eqn:Hs.
    destruct (IH _ _ H) as [E|E]; [|right; apply in_or_app; auto].
    subst bm1. pose proof (score_responses_in (tokenize message) rs bm bs r) as Hi.
    rewrite Hs in Hi. destruct (Hi eq_refl); [auto|right; apply in_or_app; auto].
Qed.

Lemma assoc_in {A} (k : string) (l : list (string * A)) v :
  assoc k l = Some v -> In (k, v) l.
Proof.
  induction l as [|[k' v'] l IH]; simpl; [discriminate|].
  destruct (String.eqb k k') eqn:E; intros H.
  - apply String.eqb_eq in E. inversion H; subst. auto.
  - auto.
Qed.

Lemma search_agent_kb_type (K : KB) (a m : string) (r : KBResponse) :
  search_agent_kb K a m = Some r -> In (kb_type r) (kb_types K).
Proof.
  unfold search_agent_kb, agent_categories. intros H.
  destruct (assoc a K) as [akb|] eqn:Ha; [|discriminate].
  destruct (search_categories_in _ _ _ _ _ H) as [E|Hin]; [discriminate|].
  apply assoc_in in Ha. unfold kb_types. apply in_flat_map.
  exists (a, akb). split; [exact Ha|]. simpl.
  apply in_flat_map in Hin as [[n rs] [Hc Hr]]. apply in_flat_map.
  exists (n, rs). split; [exact Hc|]. apply in_map. exact Hr.
Qed.

Lemma search_fallback_agents_type (K : KB) (agent m : string) (agents : list string) r a :
  search_fallback_agents K agent m agents = Some (r, a) -> In (kb_type r) (kb_types K).
Proof.
  induction agents as [|x agents IH]; simpl; [discriminate|].
  destruct (negb (String.eqb x agent)); [|exact IH].
  destruct (search_agent_kb K x m) as [r'|] eqn:E; [|exact IH].
  intros H; inversion H; subst. exact (search_agent_kb_type _ _ _ _ E).
Qed.

Lemma set_contexts_kb (s : ChatService) m : kb (set_contexts s m) = kb s.
Proof. reflexivity. Qed.

Lemma set_conversations_kb (s : ChatService) c : kb (set_conversations s c) = kb s.
Proof. reflexivity. Qed.

Lemma get_or_create_conversation_with_tone_spec (K : KB) (env : Env) (cid tone : string) :
  spec (kb_is K) (get_or_create_conversation_with_tone env cid tone) (fun _ => True).
Proof.
  unfold get_or_create_conversation_with_tone.
  apply (spec_bind _ _ _ (fun _ => True)); [apply spec_gets; auto|].
  intros convs _. destruct (decide (cid ∈ convs)); [apply spec_ret; auto|].
  apply (spec_bind _ _ _ (fun _ => True)); [apply spec_gets; auto|].
  intros avail _.
  apply (spec_bind _ _ _ (fun _ => True)).
  - destruct avail; [apply spec_lift; auto|apply spec_raise].
  - intros _ _. apply spec_modify. intros s Hs. exact Hs.
Qed.

Lemma handle_follow_up_spec (K : KB) (env : Env) (cid message : string)
  (context : ConversationContext) :
  spec (kb_is K) (handle_follow_up env cid message context)
    (fun r => answer_type r = "follow_up_response" \/ answer_type r = "empathetic_fallback").
Proof.
  unfold handle_follow_up.
  apply (spec_bind _ _ _ (fun _ => True)); [apply get_or_create_conversation_with_tone_spec|].
  intros _ _. apply spec_try_except.
  - apply (spec_bind _ _ _ (fun _ => True)); [apply spec_gets; auto|].
    intros avail _. apply (spec_bind _ _ _ (fun _ => True)).
    + destruct avail; [apply spec_lift; auto|apply spec_ret; auto].
    + intros response _. apply spec_ret. left. reflexivity.
  - intros e. apply spec_ret. right. reflexivity.
Qed.

Definition regular_answer_types : list string := ["llm_generated"; "kb_fallback"].

Lemma handle_regular_message_spec (K : KB) (env : Env) (cid message : string)
  (context : ConversationContext) :
  spec (kb_is K) (handle_regular_message env cid message context)
    (fun r => In (answer_type r) regular_answer_types \/ In (answer_type r) (kb_types K)).
Proof.
  unfold handle_regular_message.
  apply (spec_bind _ _ _ (fun _ => True)); [apply spec_gets; auto|].
  intros isa _.
  apply (spec_bind _ _ _ (fun _ => True)).
  { destruct isa; [|apply spec_ret; auto].
    apply spec_try_except; [|intros; apply spec_ret; auto].
    apply (spec_bind _ _ _ (fun _ => True)); [apply spec_lift; auto|].
    intros; apply spec_ret; auto. }
  intros [[intent0 intent_data0] agent0] _.
  apply (spec_bind _ _ _ (fun k => k = K)); [apply spec_gets; intros s Hs; exact Hs|].
  intros the_kb ->.
  apply (spec_bind _ _ _
           (fun '(_, ty, _) => In ty regular_answer_types \/ In ty (kb_types K))).
  - destruct (search_agent_kb K agent0 message) as [r|] eqn:Hs.
    + apply spec_ret. right. exact (search_agent_kb_type _ _ _ _ Hs).
    + destruct (search_fallback_agents K agent0 message fallback_agents) as [[r a]|] eqn:Hf.
      * apply spec_ret. right. exact (search_fallback_agents_type _ _ _ _ _ _ Hf).
      * apply (spec_bind _ _ _ (fun _ => True)); [apply spec_gets; auto|].
        intros avail _. destruct avail.
        -- apply spec_try_except.
           ++ apply (spec_bind _ _ _ (fun _ => True));
                [apply get_or_create_conversation_with_tone_spec|].
              intros _ _. apply (spec_bind _ _ _ (fun _ => True)); [apply spec_lift; auto|].
              intros ans _. apply spec_ret. left. simpl. auto.
           ++ intros e. destruct (_ || _)%bool; apply spec_ret; left; simpl; auto.
        -- apply spec_ret. left. simpl. auto.
  - intros [[ans ty] ag] Hty. apply spec_ret. exact Hty.
Qed.

Lemma get_or_create_context_step_spec (K : KB) (cid : string) :
  spec (kb_is K)
    (fun s => let '(c, s') := get_or_create_context s cid cid in (inr c, s'))
    (fun _ => True).
Proof.
  intros s Hs. unfold get_or_create_context.
  destruct (conversation_contexts s !! cid); simpl; auto.
Qed.

Lemma update_context_step_spec (K : KB) (cid message now : string) (sol : option string) :
  spec (kb_is K)
    (fun s => let '(r, s') := update_context s cid message sol now in (inr r, s'))
    (fun _ => True).
Proof.
  intros s Hs. unfold update_context.
  destruct (conversation_contexts s !! cid); simpl; auto.
Qed.

(** The answer types the coordinator can produce besides the [type]
    fields of knowledge-base entries. *)
Definition coordinator_answer_types : list string :=
  ["llm_generated"; "kb_fallback"; "follow_up_response"; "empathetic_fallback"; "error_fallback"].

Lemma coordinator_spec (K : KB) (env : Env) (cid message : string) :
  spec (kb_is K) (coordinator env cid message)
    (fun r => In (answer_type r) coordinator_answer_types \/ In (answer_type r) (kb_types K)).
Proof.
  unfold coordinator. apply spec_try_except.
  - unfold coordinator_body.
    apply (spec_bind _ _ _ (fun _ => True)); [apply get_or_create_context_step_spec|].
    intros context _.
    apply (spec_bind _ _ _
             (fun r => In (answer_type r) coordinator_answer_types \/
                       In (answer_type r) (kb_types K))).
    + destruct (detect_follow_up message context).
      * eapply spec_weaken; [apply handle_follow_up_spec|].
        intros r [H|H]; left; rewrite H; simpl; auto.
      * eapply spec_weaken; [apply handle_regular_message_spec|].
        intros r [H|H]; [left|right; exact H].
        destruct H as [H|[H|[]]]; rewrite <- H; simpl; auto.
    + intros response_data Hr.
      apply (spec_bind _ _ _ (fun _ => True)); [apply update_context_step_spec|].
      intros _ _. apply (spec_bind _ _ _ (fun _ => True)); [apply spec_gets; auto|].
      intros ctxs _. apply spec_ret. exact Hr.
  - intros e. apply spec_ret. left. simpl. auto 10.
Qed.

(** C5 (as the code behaves): every response of the coordinator has an
    [answer_type] among [llm_generated], [kb_fallback],
    [follow_up_response], [empathetic_fallback] and [error_fallback], or
    equal to the [type] field of a knowledge-base entry. *)
Theorem coordinator_answer_type_cases (env : Env) (svc : ChatService) (cid message : string) :
  match fst (coordinator env cid message svc) with
  | inr r => In (answer_type r) coordinator_answer_types \/
             In (answer_type r) (kb_types (kb svc))
  | inl _ => True
  end.
Proof.
  destruct (coordinator_spec (kb svc) env cid message svc eq_refl) as [_ H].
  destruct (fst (coordinator env cid message svc)) as [e|r]; [exact I|].
  apply H. reflexivity.
Qed.

(** C1 (as the code behaves): no [Exception] leaves the coordinator; an
    [Exception] escaping its [try] block gives the fixed [error_fallback]
    response, whose [intent_data] is confidence 0.0 with no keywords; an
    exception of a [BaseException]-only class goes through. *)
Theorem coordinator_catches_exceptions (env : Env) (svc : ChatService) (cid message : string) :
  (forall cls msg, fst (coordinator env cid message svc) <> inl (Exception cls msg)) /\
  (forall cls msg, fst (coordinator_body env cid message svc) = inl (Exception cls msg) ->
     fst (coordinator env cid message svc) = inr (error_fallback_response (elapsed_ms env))) /\
  (forall cls, fst (coordinator_body env cid message svc) = inl (BaseException cls) ->
     fst (coordinator env cid message svc) = inl (BaseException cls)) /\
  answer_type (error_fallback_response (elapsed_ms env)) = "error_fallback" /\
  intent_data (error_fallback_response (elapsed_ms env)) =
    [("confidence", PFloat 0); ("keywords", PList [])].
Proof.
  unfold coordinator, try_except.
  destruct (coordinator_body env cid message svc) as [[[c m|c]|r] s'] eqn:E; simpl;
    repeat split; intros; try discriminate; try reflexivity;
    match goal with H : inl _ = inl _ |- _ => inversion H; subst; reflexivity | _ => idtac end.
Qed.

(** A turn where the completion service is down. *)
Definition env_llm_down : Env :=
  {| route_message := fun _ => inr ("general", [("confidence", PFloat (1 # 2))]);
     new_chat_llm := inr tt;
     arun := fun _ => inl (Exception "APIConnectionError" "Connection error.");
     now_iso := "2026-01-01T00:00:00";
     elapsed_ms := 12 |}.

(** A service whose conversation [c1] just received a solution. *)
Definition svc_after_solution (llm : bool) : ChatService :=
  {| conversations := ∅; conversation_contexts := {["c1" := ctx_after_solution]}; kb := [];
     llm_available := llm; intent_service_available := true |}.

(** With no LLM, the follow-up path fails creating its chain
    ([ConversationChain(llm=None)]) and the coordinator's handler gives
    the [error_fallback] response. *)
Lemma coordinator_catches_exceptions_witness :
  fst (coordinator_body env_llm_down "c1" "ok" (svc_after_solution false)) =
    inl (Exception "ValidationError" "1 validation error for ConversationChain llm") /\
  fst (coordinator env_llm_down "c1" "ok" (svc_after_solution false)) =
    inr (error_fallback_response (elapsed_ms env_llm_down)).
Proof.
  assert (H : fst (coordinator_body env_llm_down "c1" "ok" (svc_after_solution false)) =
    inl (Exception "ValidationError" "1 validation error for ConversationChain llm"))
    by (vm_compute; reflexivity).
  split; [exact H|].
  exact (proj1 (proj2 (coordinator_catches_exceptions env_llm_down (svc_after_solution false)
                          "c1" "ok")) _ _ H).
Defined.

(** C1 as stated fails: the completion call of the follow-up path
    raises, and the coordinator returns the [empathetic_fallback]
    response, not the [error_fallback] one. *)
Lemma coordinator_internal_failure_counterexample :
  (forall p, arun env_llm_down p = inl (Exception "APIConnectionError" "Connection error.")) /\
  detect_follow_up "ok" ctx_after_solution = true /\
  exists r s', coordinator env_llm_down "c1" "ok" (svc_after_solution true) = (inr r, s') /\
    answer_type r = "empathetic_fallback" /\
    r <> error_fallback_response (elapsed_ms env_llm_down).
Proof.
  split; [reflexivity|]. split; [vm_compute; reflexivity|].
  eexists _, _. split; [vm_compute; reflexivity|].
  split; [reflexivity|]. intros H. inversion H.
Qed.

(** C5 as stated fails: the same turn returns an [answer_type] outside
    [kb_exact], [kb_fallback], [llm_generated], [follow_up_response],
    [error_fallback]. *)
Lemma coordinator_answer_type_outside_enum :
  exists r s', coordinator env_llm_down "c1" "ok" (svc_after_solution true) = (inr r, s') /\
    ~ In (answer_type r)
        ["kb_exact"; "kb_fallback"; "llm_generated"; "follow_up_response"; "error_fallback"].
Proof.
  eexists _, _. split; [vm_compute; reflexivity|].
  simpl. intros H. repeat (destruct H as [H|H]; [discriminate H|]). exact H.
Qed.

(** ** Loading an absent or empty corpus *)

(** C4: the exact/overlap retrieval of [ChatService] survives a missing
    file (no match for any query), but [SemanticKnowledgeBase()] raises
    on a missing file, and on a corpus with no entries. *)
Theorem semantic_kb_missing_file_raises :
  (forall agent message,
     match chat_service_load_kb FileMissing with
     | inr k => search_agent_kb k agent message = None
     | inl _ => False
     end) /\
  semantic_kb_init FileMissing = inl (Exception "FileNotFoundError" "No such file or directory") /\
  semantic_kb_init (FileAgents []) = inl (Exception "IndexError" "tuple index out of range").
Proof.
  split; [|split; reflexivity].
  intros agent message. simpl. unfold search_agent_kb, agent_categories. simpl.
  destruct (String.eqb agent "tech_support"); [reflexivity|].
  destruct (String.eqb agent "billing"); [reflexivity|].
  destruct (String.eqb agent "general"); reflexivity.
Qed.

(* ================================================================== *)
(** * Further properties of the code *)

(** ** Exact/overlap retrieval: where answers come from *)

(** X1: [search_agent_kb] answers only from the requested agent: a result
    is an entry of one of that agent's categories (so an agent absent
    from the knowledge base gets no answer). *)
Theorem search_agent_kb_from_agent (K : KB) (agent message : string) (r : KBResponse) :
  search_agent_kb K agent message = Some r ->
  exists akb cat rs, assoc agent K = Some akb /\ In (cat, rs) (categories akb) /\ In r rs.
Proof.
  unfold search_agent_kb, agent_categories. intros H.
  destruct (assoc agent K) as [akb|] eqn:Ha; [|destruct (search_categories_in _ _ _ _ _ H); discriminate].
  destruct (search_categories_in _ _ _ _ _ H) as [E|Hin]; [discriminate|].
  apply in_flat_map in Hin as [[cat rs] [Hc Hr]].
  exists akb, cat, rs. auto.
Qed.

Lemma search_agent_kb_from_agent_witness :
  search_agent_kb kb_two_categories "tech_support" "outage" = Some resp_outage /\
  exists akb cat rs, assoc "tech_support" kb_two_categories = Some akb /\
    In (cat, rs) (categories akb) /\ In resp_outage rs.
Proof.
  assert (H : search_agent_kb kb_two_categories "tech_support" "outage" = Some resp_outage)
    by (vm_compute; reflexivity).
  exact (conj H (search_agent_kb_from_agent _ _ _ _ H)).
Defined.

Lemma score_responses_zero (toks : list string) (rs : list KBResponse) :
  (forall r, In r rs -> response_score toks r = 0%nat) ->
  score_responses toks rs None 0%nat = (None, 0%nat).
Proof.
  induction rs as [|x rs IH]; intros H; simpl; [reflexivity|].
  rewrite (H x (or_introl eq_refl)). simpl. apply IH. intros r Hr. apply H. right. exact Hr.
Qed.

Lemma score_responses_some (toks : list string) (rs : list KBResponse) x bs :
  exists y bs', score_responses toks rs (Some x) bs = (Some y, bs').
Proof.
  revert x bs. induction rs as [|r rs IH]; intros x bs; simpl; [eauto|].
  destruct (Nat.ltb bs (response_score toks r)); apply IH.
Qed.

Lemma score_responses_pos (toks : list string) (rs : list KBResponse) r :
  In r rs -> response_score toks r <> 0%nat ->
  exists y bs', score_responses toks rs None 0%nat = (Some y, bs').
Proof.
  assert (G : forall bs, In r rs -> (bs < response_score toks r)%nat ->
            exists y bs', score_responses toks rs None bs = (Some y, bs')).
  { induction rs as [|x rs IH]; intros bs Hin Hlt; [destruct Hin|]. simpl.
    destruct (Nat.ltb bs (response_score toks x)) eqn:E; [apply score_responses_some|].
    destruct Hin as [<-|Hin]; [apply Nat.ltb_nlt in E; lia|]. exact (IH bs Hin Hlt). }
  intros Hin Hne. apply G; [exact Hin|lia].
Qed.

Lemma search_categories_some (message : string) cats x bs :
  exists y, search_categories message cats (Some x) bs = Some y.
Proof.
  revert x bs. induction cats as [|[n rs] cats IH]; intros x bs; simpl; [eauto|].
  destruct (if category_matches n message then rs else []) as [|r0 ?]; [|eauto].
  destruct (score_responses_some (tokenize message) rs x bs) as (y & bs' & ->). apply IH.
Qed.

(** X2: [search_agent_kb] gives no answer exactly when, among the
    agent's categories, every one with entries has a name that does not
    match the message, and no entry has a keyword sharing a token with
    the message. *)
Theorem search_agent_kb_none_iff (K : KB) (agent message : string) :
  search_agent_kb K agent message = None <->
  (forall cat rs, In (cat, rs) (agent_categories K agent) ->
     (category_matches cat message = false \/ rs = []) /\
     (forall r, In r rs -> response_score (tokenize message) r = 0%nat)).
Proof.
  unfold search_agent_kb. generalize (agent_categories K agent) as cats. intros cats.
  induction cats as [|[n rs] cats IH]; simpl.
  - split; [intros _ cat rs' []|reflexivity].
  - split.
    + intros H.
      destruct rs as [|r0 rs0].
      * assert (Hx : (if category_matches n message then @nil KBResponse else []) = []).
        { destruct (category_matches n message); reflexivity. }
        rewrite Hx in H. simpl in H. intros cat rs' [E|Hin].
        -- inversion E; subst. split; [right; reflexivity|intros r []].
        -- exact (proj1 IH H cat rs' Hin).
      * destruct (category_matches n message) eqn:Hm; [discriminate|].
        assert (Hz : forall r, In r (r0 :: rs0) -> response_score (tokenize message) r = 0%nat).
        { intros r Hr. destruct (Nat.eq_dec (response_score (tokenize message) r) 0%nat) as [|Hne];
            [assumption|].
          destruct (score_responses_pos _ _ _ Hr Hne) as (y & bs' & E).
          rewrite E in H. destruct (search_categories_some message cats y bs') as [z Hz].
          rewrite Hz in H. discriminate. }
        rewrite (score_responses_zero _ _ Hz) in H.
        intros cat rs' [E|Hin].
        -- inversion E; subst. split; [left; exact Hm|exact Hz].
        -- exact (proj1 IH H cat rs' Hin).
    + intros H.
      destruct (H n rs (or_introl eq_refl)) as [Hc Hz].
      assert (Hnil : (if category_matches n message then rs else []) = []).
      { destruct Hc as [-> | ->]; [reflexivity|]. destruct (category_matches n message); reflexivity. }
      rewrite Hnil, (score_responses_zero _ _ Hz).
      apply IH. intros cat rs' Hin. exact (H cat rs' (or_intror Hin)).
Qed.

(** X3: the fallback loop of [handle_regular_message] returns an agent
    of the list other than the routed one, with that agent's own
    [search_agent_kb] answer, and it is the first such agent in the
    list's order: every agent before it is the routed one or has no
    answer. *)
Theorem search_fallback_agents_first_other (K : KB) (agent message : string)
  (agents : list string) (r : KBResponse) (a : string) :
  search_fallback_agents K agent message agents = Some (r, a) ->
  a <> agent /\ search_agent_kb K a message = Some r /\
  exists pre post, agents = (pre ++ a :: post)%list /\
    Forall (fun b => b = agent \/ search_agent_kb K b message = None) pre.
Proof.
  induction agents as [|x agents IH]; simpl; [discriminate|].
  destruct (String.eqb x agent) eqn:Ex; simpl.
  - intros H. destruct (IH H) as (Hne & Hs & pre & post & -> & Hpre).
    split; [exact Hne|]. split; [exact Hs|]. exists (x :: pre), post. split; [reflexivity|].
    constructor; [left; apply String.eqb_eq; exact Ex|exact Hpre].
  - destruct (search_agent_kb K x message) as [r'|] eqn:Hs.
    + intros H. inversion H; subst. split; [intros E; subst; rewrite String.eqb_refl in Ex; discriminate|].
      split; [exact Hs|]. exists [], agents. split; [reflexivity|constructor].
    + intros H. destruct (IH H) as (Hne & Hs' & pre & post & -> & Hpre).
      split; [exact Hne|]. split; [exact Hs'|]. exists (x :: pre), post. split; [reflexivity|].
      constructor; [right; exact Hs|exact Hpre].
Qed.

Lemma search_fallback_agents_first_other_witness :
  search_fallback_agents kb_two_categories "billing" "outage" fallback_agents
    = Some (resp_outage, "tech_support") /\
  ("tech_support" <> "billing" /\
   search_agent_kb kb_two_categories "tech_support" "outage" = Some resp_outage /\
   exists pre post, fallback_agents = (pre ++ "tech_support" :: post)%list /\
     Forall (fun b => b = "billing" \/ search_agent_kb kb_two_categories b "outage" = None) pre).
Proof.
  assert (H : search_fallback_agents kb_two_categories "billing" "outage" fallback_agents
                = Some (resp_outage, "tech_support")) by (vm_compute; reflexivity).
  exact (conj H (search_fallback_agents_first_other _ _ _ _ _ _ H)).
Defined.

(** ** The context map *)

(** X4: [get_or_create_context] returns the context stored under the id
    afterwards; it touches no other id; a missing id gets the dataclass
    defaults with [user_id or conversation_id] as user; an existing
    context is returned as is with the service unchanged; and a second
    call returns the same context and changes nothing. *)
Theorem get_or_create_context_lookup (svc : ChatService) (cid uid : string) :
  let '(ctx, svc') := get_or_create_context svc cid uid in
  conversation_contexts svc' !! cid = Some ctx /\
  (forall k, k <> cid -> conversation_contexts svc' !! k = conversation_contexts svc !! k) /\
  (conversation_contexts svc !! cid = None ->
     ctx = new_context cid (if String.eqb uid "" then cid else uid)) /\
  (forall c, conversation_contexts svc !! cid = Some c -> ctx = c /\ svc' = svc) /\
  get_or_create_context svc' cid uid = (ctx, svc') /\
  kb svc' = kb svc /\ conversations svc' = conversations svc.
Proof.
  unfold get_or_create_context.
  destruct (conversation_contexts svc !! cid) as [c|] eqn:E.
  - rewrite E. repeat split; intros; congruence.
  - cbn [set_contexts conversation_contexts]. rewrite lookup_insert_eq.
    repeat split; intros; try congruence.
    apply lookup_insert_ne. auto.
Qed.

(** ** [update_context] across turns *)

(** X5: when a message that is not a follow-up is answered with a
    non-empty solution summary, [update_context] puts the conversation
    in [problem_solving] with that solution recorded, and from then on
    every message of fewer than 10 words counts as a follow-up. *)
Theorem update_context_solution_makes_short_follow_up (svc : ChatService) (cid m1 sol now : string)
  (ctx : ConversationContext) :
  conversation_contexts svc !! cid = Some ctx ->
  detect_follow_up m1 ctx = false -> sol <> "" ->
  exists ctx' svc',
    update_context svc cid m1 (Some sol) now = (Some ctx', svc') /\
    conversation_contexts svc' !! cid = Some ctx' /\
    current_state ctx' = PROBLEM_SOLVING /\ last_solution_offered ctx' = Some sol /\
    (forall m2, (length (PyStr.split_ws m2) < 10)%nat -> detect_follow_up m2 ctx' = true).
Proof.
  intros Hc Hf Hs. unfold update_context. rewrite Hc.
  eexists _, _. split; [reflexivity|].
  cbn [set_contexts conversation_contexts]. rewrite lookup_insert_eq.
  assert (Ht : truthy_str (Some sol) = true).
  { simpl. destruct (String.eqb sol "") eqn:E; [apply String.eqb_eq in E; contradiction|reflexivity]. }
  unfold update_context_obj. rewrite Hf, Ht. cbn.
  split; [reflexivity|]. split; [reflexivity|]. split; [reflexivity|].
  intros m2 Hlen. unfold detect_follow_up. cbn [current_state last_solution_offered].
  rewrite Ht. change (state_eqb PROBLEM_SOLVING PROBLEM_SOLVING) with true.
  apply Nat.ltb_lt in Hlen. rewrite Hlen.
  destruct (existsb _ _); reflexivity.
Qed.

Lemma update_context_solution_makes_short_follow_up_witness :
  let ctx0 := new_context "c1" "c1" in
  conversation_contexts (svc_demo {["c1" := ctx0]}) !! "c1" = Some ctx0 /\
  detect_follow_up "my internet is down" ctx0 = false /\ "Try restarting the modem" <> "" /\
  exists ctx' svc',
    update_context (svc_demo {["c1" := ctx0]}) "c1" "my internet is down"
      (Some "Try restarting the modem") "t0" = (Some ctx', svc') /\
    conversation_contexts svc' !! "c1" = Some ctx' /\
    current_state ctx' = PROBLEM_SOLVING /\
    last_solution_offered ctx' = Some "Try restarting the modem" /\
    (forall m2, (length (PyStr.split_ws m2) < 10)%nat -> detect_follow_up m2 ctx' = true).
Proof.
  intros ctx0.
  assert (H1 : conversation_contexts (svc_demo {["c1" := ctx0]}) !! "c1" = Some ctx0)
    by (vm_compute; reflexivity).
  assert (H2 : detect_follow_up "my internet is down" ctx0 = false) by (vm_compute; reflexivity).
  assert (H3 : "Try restarting the modem" <> "") by discriminate.
  exact (conj H1 (conj H2 (conj H3
    (update_context_solution_makes_short_follow_up _ "c1" "my internet is down"
       "Try restarting the modem" "t0" ctx0 H1 H2 H3)))).
Defined.

(** X6: [update_context] appends to [resolution_attempts] exactly one
    entry, for the solution recorded before this message (outcome
    [ineffective], the message as feedback, the update time), when the
    message is a follow-up and a non-empty solution was recorded; it
    leaves the list as it was otherwise. *)
Theorem update_context_obj_resolution_attempts (ctx : ConversationContext)
  (message : string) (sol : option string) (now : string) :
  resolution_attempts (update_context_obj ctx message sol now) =
  (resolution_attempts ctx ++
     (if (detect_follow_up message ctx && truthy_str (last_solution_offered ctx))%bool
      then [{| ra_solution := default "" (last_solution_offered ctx); ra_timestamp := now;
               ra_outcome := "ineffective"; ra_user_feedback := message |}]
      else []))%list.
Proof.
  unfold update_context_obj.
  destruct (detect_follow_up message ctx) eqn:Hf; simpl.
  - destruct (last_solution_offered ctx) as [s|] eqn:Hl; simpl.
    + destruct (negb (String.eqb s "")); simpl;
        destruct (truthy_str sol); simpl; rewrite ?app_nil_r; reflexivity.
    + destruct (truthy_str sol); simpl; rewrite app_nil_r; reflexivity.
  - destruct (truthy_str sol); simpl; rewrite app_nil_r; reflexivity.
Qed.

(** The keys of [self.tone_prompts]. *)
Definition tone_prompt_keys : list string :=
  ["helpful_friendly"; "understanding_adaptive"; "patient_alternative";
   "empathetic_supportive"; "empathetic_escalation"].

(** X7: after [update_context] the context's [preferred_tone] is always
    a key of [tone_prompts], and it is [empathetic_escalation] whenever
    the updated frustration level is 7 or more; the default tone
    ["helpful"] of a fresh context is not a key. *)
Theorem update_context_obj_tone (ctx : ConversationContext) (message : string)
  (sol : option string) (now : string) :
  In (preferred_tone (update_context_obj ctx message sol now)) tone_prompt_keys /\
  (7 <= frustration_level (update_context_obj ctx message sol now) ->
   preferred_tone (update_context_obj ctx message sol now) = "empathetic_escalation") /\
  ~ In (preferred_tone (new_context (conversation_id ctx) (user_id ctx))) tone_prompt_keys.
Proof.
  assert (Hd : forall c, In (determine_tone c) tone_prompt_keys /\
             (7 <= frustration_level c -> determine_tone c = "empathetic_escalation")).
  { intros c. unfold determine_tone.
    destruct (Z.leb 7 (frustration_level c)) eqn:E7.
    - split; [simpl; tauto|reflexivity].
    - split; [|intros H; apply Z.leb_nle in E7; lia].
      repeat match goal with |- context [if ?b then _ else _] => destruct b end;
        simpl; tauto. }
  split; [apply Hd|]. split; [apply Hd|].
  simpl. intros H. repeat (destruct H as [H|H]; [discriminate H|]). exact H.
Qed.

(** ** Keyword routing and the regular path *)

Lemma filter_length_zero {A} (f : A -> bool) (l : list A) :
  length (List.filter f l) = 0%nat <-> (forall x, In x l -> f x = false).
Proof.
  induction l as [|x l IH]; simpl.
  - split; [intros _ y []|reflexivity].
  - destruct (f x) eqn:Ef; simpl.
    + split; [discriminate|]. intros H. rewrite (H x (or_introl eq_refl)) in Ef. discriminate.
    + rewrite IH. split.
      * intros H y [<-|Hy]; auto.
      * intros H y Hy. apply H. right. exact Hy.
Qed.

(** X8: [simple_agent_routing] answers [general] exactly when the
    lowercased message contains none of the technical and billing
    keywords; a message with as many billing keywords as technical ones
    (at least one) goes to [billing]. *)
Theorem simple_agent_routing_cases (message : string) :
  (simple_agent_routing message = "general" <->
   forall k, In k (tech_keywords ++ billing_keywords)%list ->
     PyStr.contains k (PyStr.lower message) = false) /\
  ((0 < length (List.filter (fun k => PyStr.contains k (PyStr.lower message)) billing_keywords))%nat ->
   length (List.filter (fun k => PyStr.contains k (PyStr.lower message)) billing_keywords) =
   length (List.filter (fun k => PyStr.contains k (PyStr.lower message)) tech_keywords) ->
   simple_agent_routing message = "billing").
Proof.
  unfold simple_agent_routing.
  set (ft := List.filter _ tech_keywords). set (fb := List.filter _ billing_keywords).
  split.
  - assert (Ht := filter_length_zero (fun k => PyStr.contains k (PyStr.lower message)) tech_keywords).
    assert (Hb := filter_length_zero (fun k => PyStr.contains k (PyStr.lower message)) billing_keywords).
    fold ft in Ht. fold fb in Hb.
    split.
    + intros H k Hk. apply in_app_or in Hk.
      destruct (Nat.ltb (length fb) (length ft)) eqn:E1; [discriminate|].
      destruct (Nat.ltb 0 (length fb)) eqn:E2; [discriminate|].
      apply Nat.ltb_nlt in E1, E2.
      destruct Hk as [Hk|Hk]; [apply (proj1 Ht); [lia|exact Hk]|apply (proj1 Hb); [lia|exact Hk]].
    + intros H.
      rewrite (proj2 Ht (fun x Hx => H x (in_or_app _ _ _ (or_introl Hx)))).
      rewrite (proj2 Hb (fun x Hx => H x (in_or_app _ _ _ (or_intror Hx)))).
      reflexivity.
  - intros Hpos Heq. rewrite Heq.
    rewrite Nat.ltb_irrefl. rewrite <- Heq. apply Nat.ltb_lt in Hpos. rewrite Hpos. reflexivity.
Qed.

(** X9: on the regular path, when [search_agent_kb] finds an entry for
    the routed agent (the agent of the classified intent, or the
    keyword-routing agent when the intent service is off or raises),
    [handle_regular_message] answers with that entry's content and
    type, for that agent, without calling the completion service or
    changing the service state. *)
Theorem handle_regular_message_kb_hit (env : Env) (svc : ChatService) (cid message : string)
  (context : ConversationContext) (a : string) (r : KBResponse) :
  (((intent_service_available svc = false \/
     exists c m, route_message env message = inl (Exception c m)) /\
    a = simple_agent_routing message) \/
   (exists i d, intent_service_available svc = true /\
      route_message env message = inr (i, d) /\ a = agent_of_intent i)) ->
  search_agent_kb (kb svc) a message = Some r ->
  exists resp, handle_regular_message env cid message context svc = (inr resp, svc) /\
    answer resp = kb_content r /\ answer_type resp = kb_type r /\
    agent_type resp = a /\ agent resp = agent_display_name (kb svc) a.
Proof.
  intros Hroute Hs. unfold handle_regular_message, bind, gets, ret, try_except, lift.
  destruct Hroute as [[Hoff ->] | (i & d & Hon & Hr & ->)].
  - destruct (intent_service_available svc) eqn:Hisa.
    + destruct Hoff as [Hoff|(c & m & Hr)]; [discriminate|].
      rewrite Hr. rewrite Hs. eexists. split; [reflexivity|]. repeat split.
    + rewrite Hs. eexists. split; [reflexivity|]. repeat split.
  - rewrite Hon, Hr. cbn [fst snd]. rewrite Hs. eexists. split; [reflexivity|]. repeat split.
Qed.

Lemma handle_regular_message_kb_hit_witness :
  let svc := {| conversations := ∅; conversation_contexts := ∅; kb := kb_two_categories;
                llm_available := true; intent_service_available := false |} in
  ((((intent_service_available svc = false \/
      exists c m, route_message env_llm_down "my internet outage" = inl (Exception c m)) /\
     "tech_support" = simple_agent_routing "my internet outage") \/
    (exists i d, intent_service_available svc = true /\
       route_message env_llm_down "my internet outage" = inr (i, d) /\
       "tech_support" = agent_of_intent i)) /\
   search_agent_kb (kb svc) "tech_support" "my internet outage" = Some resp_outage) /\
  exists resp, handle_regular_message env_llm_down "c1" "my internet outage"
                 (new_context "c1" "c1") svc = (inr resp, svc) /\
    answer resp = kb_content resp_outage /\ answer_type resp = kb_type resp_outage /\
    agent_type resp = "tech_support" /\
    agent resp = agent_display_name (kb svc) "tech_support".
Proof.
  intros svc.
  assert (H1 : ((intent_service_available svc = false \/
      exists c m, route_message env_llm_down "my internet outage" = inl (Exception c m)) /\
     "tech_support" = simple_agent_routing "my internet outage") \/
    (exists i d, intent_service_available svc = true /\
       route_message env_llm_down "my internet outage" = inr (i, d) /\
       "tech_support" = agent_of_intent i)).
  { left. split; [left; reflexivity|vm_compute; reflexivity]. }
  assert (H2 : search_agent_kb (kb svc) "tech_support" "my internet outage" = Some resp_outage)
    by (vm_compute; reflexivity).
  exact (conj (conj H1 H2)
    (handle_regular_message_kb_hit env_llm_down svc "c1" "my internet outage"
       (new_context "c1" "c1") "tech_support" resp_outage H1 H2)).
Defined.

(** ** What a coordinator turn keeps *)

Section Frame.
Variable I : ChatService -> Prop.
Hypothesis I_conversations :
  forall s x, I s -> I (set_conversations s ({[x]} ∪ conversations s)).

Lemma get_or_create_conversation_with_tone_frame (env : Env) (cid tone : string) :
  spec I (get_or_create_conversation_with_tone env cid tone) (fun _ => True).
Proof.
  unfold get_or_create_conversation_with_tone.
  apply (spec_bind _ _ _ (fun _ => True)); [apply spec_gets; auto|].
  intros convs _. destruct (decide (cid ∈ convs)); [apply spec_ret; auto|].
  apply (spec_bind _ _ _ (fun _ => True)); [apply spec_gets; auto|].
  intros avail _.
  apply (spec_bind _ _ _ (fun _ => True)).
  - destruct avail; [apply spec_lift; auto|apply spec_raise].
  - intros _ _. apply spec_modify. intros s Hs. apply I_conversations. exact Hs.
Qed.

Lemma handle_follow_up_frame (env : Env) (cid message : string) (context : ConversationContext) :
  spec I (handle_follow_up env cid message context) (fun _ => True).
Proof.
  unfold handle_follow_up.
  apply (spec_bind _ _ _ (fun _ => True)); [apply get_or_create_conversation_with_tone_frame|].
  intros _ _. apply spec_try_except.
  - apply (spec_bind _ _ _ (fun _ => True)); [apply spec_gets; auto|].
    intros avail _. apply (spec_bind _ _ _ (fun _ => True)).
    + destruct avail; [apply spec_lift; auto|apply spec_ret; auto].
    + intros response _. apply spec_ret. trivial.
  - intros e. apply spec_ret. trivial.
Qed.

Lemma handle_regular_message_frame (env : Env) (cid message : string)
  (context : ConversationContext) :
  spec I (handle_regular_message env cid message context) (fun _ => True).
Proof.
  unfold handle_regular_message.
  apply (spec_bind _ _ _ (fun _ => True)); [apply spec_gets; auto|].
  intros isa _.
  apply (spec_bind _ _ _ (fun _ => True)).
  { destruct isa; [|apply spec_ret; auto].
    apply spec_try_except; [|intros; apply spec_ret; auto].
    apply (spec_bind _ _ _ (fun _ => True)); [apply spec_lift; auto|].
    intros; apply spec_ret; auto. }
  intros [[intent0 intent_data0] agent0] _.
  apply (spec_bind _ _ _ (fun _ => True)); [apply spec_gets; auto|].
  intros the_kb _.
  apply (spec_bind _ _ _ (fun _ => True)).
  - destruct (match search_agent_kb the_kb agent0 message with
              | Some r => Some (r, agent0)
              | None => search_fallback_agents the_kb agent0 message fallback_agents
              end) as [[r a]|].
    + apply spec_ret. trivial.
    + apply (spec_bind _ _ _ (fun _ => True)); [apply spec_gets; auto|].
      intros avail _. destruct avail.
      * apply spec_try_except.
        -- apply (spec_bind _ _ _ (fun _ => True)); [apply get_or_create_conversation_with_tone_frame|].
           intros _ _. apply (spec_bind _ _ _ (fun _ => True)); [apply spec_lift; auto|].
           intros ans _. apply spec_ret. trivial.
        -- intros e. destruct (_ || _)%bool; apply spec_ret; trivial.
      * apply spec_ret. trivial.
  - intros [[ans ty] ag] _. apply spec_ret. trivial.
Qed.

End Frame.

(** The service state after a turn for [cid], relative to the state
    [s0] before it. *)
Definition turn_frame (s0 : ChatService) (cid : string) (s : ChatService) : Prop :=
  kb s = kb s0 /\ llm_available s = llm_available s0 /\
  intent_service_available s = intent_service_available s0 /\
  conversations s0 ⊆ conversations s /\
  (forall k, is_Some (conversation_contexts s0 !! k) -> is_Some (conversation_contexts s !! k)) /\
  is_Some (conversation_contexts s !! cid).

Lemma turn_frame_conversations (s0 : ChatService) (cid : string) :
  forall s x, turn_frame s0 cid s ->
    turn_frame s0 cid (set_conversations s ({[x]} ∪ conversations s)).
Proof.
  intros s x (H1 & H2 & H3 & H4 & H5 & H6). unfold turn_frame; cbn.
  repeat split; auto. set_solver.
Qed.

(** The steps of [coordinator_body] after the context lookup keep
    [turn_frame]. *)
Ltac frame_rest cid :=
  apply (spec_bind _ _ _ (fun _ => True));
  [ match goal with |- spec _ (if ?b then _ else _) _ => destruct b end;
    [ apply handle_follow_up_frame, turn_frame_conversations
    | apply handle_regular_message_frame, turn_frame_conversations ]
  | intros rd _; apply (spec_bind _ _ _ (fun _ => True));
    [ let s := fresh "s" in
      let H5 := fresh "H5" in
      let H6 := fresh "H6" in
      intros s (? & ? & ? & ? & H5 & H6); unfold update_context;
      destruct (conversation_contexts s !! cid) eqn:?; cbn;
      [|unfold turn_frame; repeat split; auto;
        match goal with Hx : is_Some None |- _ => destruct Hx as [? Hx]; discriminate Hx end];
      unfold turn_frame; cbn; repeat split; auto;
      try (rewrite lookup_insert_eq; eexists; reflexivity);
      try (let k := fresh "k" in
           let Hk := fresh "Hk" in
           intros k Hk; destruct (decide (k = cid)) as [->|?];
           [rewrite lookup_insert_eq; eexists; reflexivity
           |rewrite lookup_insert_ne by auto; apply H5; exact Hk])
    | intros _ _; apply (spec_bind _ _ _ (fun _ => True)); [apply spec_gets; auto|];
      intros ? _; apply spec_ret; trivial ] ].

(** X10: whatever happens during a turn (an answer, a caught exception,
    or an exception that escapes), the coordinator leaves the knowledge
    base and the availability flags as they were, forgets no
    conversation chain and no context, and leaves a context for the
    turn's conversation id. *)
Theorem coordinator_frame (env : Env) (svc : ChatService) (cid message : string) :
  turn_frame svc cid (snd (coordinator env cid message svc)).
Proof.
  assert (Hbody : turn_frame svc cid (snd (coordinator_body env cid message svc))).
  { unfold coordinator_body. unfold bind at 1.
    unfold get_or_create_context at 1.
    destruct (conversation_contexts svc !! cid) as [c|] eqn:Ec.
    - assert (H0 : turn_frame svc cid svc).
      { unfold turn_frame. repeat split; auto; try (rewrite Ec; eexists; reflexivity). }
      cbv beta iota.
      match goal with |- turn_frame _ _ (snd (?M ?s)) =>
        assert (HM : spec (turn_frame svc cid) M (fun _ => True)); [|exact (proj1 (HM s H0))]
      end.
      frame_rest cid.
    - set (ctx := new_context cid (if String.eqb cid "" then cid else cid)).
      set (s1 := set_contexts svc (<[cid := ctx]> (conversation_contexts svc))).
      assert (H0 : turn_frame svc cid s1).
      { unfold turn_frame, s1; cbn. repeat split; auto.
        - intros k Hk. destruct (decide (k = cid)) as [->|Hne];
            [rewrite lookup_insert_eq; eexists; reflexivity|].
          rewrite lookup_insert_ne by auto. exact Hk.
        - rewrite lookup_insert_eq. eexists; reflexivity. }
      cbv beta iota.
      match goal with |- turn_frame _ _ (snd (?M ?s)) =>
        assert (HM : spec (turn_frame svc cid) M (fun _ => True)); [|exact (proj1 (HM s H0))]
      end.
      frame_rest cid. }
  unfold coordinator, try_except.
  destruct (coordinator_body env cid message svc) as [[[c m|c]|r] s'] eqn:E; exact Hbody.
Qed.

(** ** The local classifier's output range *)

Section LocalIntentRange.
Import LocalIntent.
Local Open Scope Q_scope.

Lemma fold_score_ge (l : list string) (d : Q) (test : string -> bool) (sc : Q) (fs : list string) :
  0 <= d ->
  sc <= fst (fold_left (fun '(sc, fs) x => if test x then (sc + d, (fs ++ [x])%list) else (sc, fs))
                       l (sc, fs)).
Proof.
  intros Hd. revert sc fs. induction l as [|x l IH]; intros sc fs; simpl; [apply Qle_refl|].
  destruct (test x).
  - eapply Qle_trans; [|apply IH]. lra.
  - apply IH.
Qed.

Lemma category_score_nonneg (message_lower : string) (p : IntentPattern) :
  0 <= ip_confidence_boost p -> 0 <= fst (category_score message_lower p).
Proof.
  intros Hb. unfold category_score.
  pose proof (fold_score_ge (ip_phrases p) (8 # 10)
                (fun phrase => PyStr.contains (PyStr.lower phrase) message_lower) 0 []) as H1.
  destruct (fold_left _ (ip_phrases p) (0, [])) as [s1 f1] eqn:E1.
  pose proof (fold_score_ge (ip_keywords p) (3 # 10)
                (fun kw => PyStr.contains (PyStr.lower kw) message_lower) s1 f1) as H2.
  destruct (fold_left _ (ip_keywords p) (s1, f1)) as [s2 f2] eqn:E2.
  cbn [fst] in *.
  assert (Hs2 : 0 <= s2) by (eapply Qle_trans; [apply H1; lra|apply H2; lra]).
  destruct (Qle_bool s2 0); cbn [fst]; lra.
Qed.

Lemma intent_patterns_boost_nonneg :
  Forall (fun np => 0 <= ip_confidence_boost (snd np)) intent_patterns.
Proof. repeat constructor; unfold Qle; simpl; lia. Qed.

Lemma intent_scores_nonneg (message : string) :
  Forall (fun e => 0 <= fst (snd e)) (intent_scores_of message).
Proof.
  unfold intent_scores_of. apply Forall_map.
  eapply Forall_impl; [apply intent_patterns_boost_nonneg|].
  intros [name p] Hb. apply category_score_nonneg. exact Hb.
Qed.

Lemma max_score_in (scores : list (string * (Q * list string))) :
  scores <> [] -> In (max_score scores) (map (fun e => fst (snd e)) scores).
Proof.
  destruct scores as [|[n0 [s0 f0]] rest]; [contradiction|intros _]. unfold max_score.
  assert (G : forall m, In m (map (fun e => fst (snd e)) ((n0, (s0, f0)) :: rest)) ->
    In (fold_left (fun m '(_, (s, _)) => if Qle_bool s m then m else s) rest m)
       (map (fun e => fst (snd e)) ((n0, (s0, f0)) :: rest))).
  { assert (Hsub : forall x, In x (map (fun e => fst (snd e)) rest) ->
                  In x (map (fun e => fst (snd e)) ((n0, (s0, f0)) :: rest))) by (intros; right; auto).
    revert Hsub. generalize (map (fun e => fst (snd e)) ((n0, (s0, f0)) :: rest)) as L.
    induction rest as [|[n [s f]] rest IH]; intros L Hsub m Hm; simpl; [exact Hm|].
    apply IH; [intros x Hx; apply Hsub; right; exact Hx|].
    destruct (Qle_bool s m); [exact Hm|apply Hsub; left; reflexivity]. }
  apply G. left. reflexivity.
Qed.

Lemma fold_best_max {A} (sc : A -> Q) (rest : list A) (b : A) :
  let r := fold_left (fun best e => if Qle_bool (sc e) (sc best) then best else e) rest b in
  (r = b \/ In r rest) /\ sc b <= sc r /\ Forall (fun x => sc x <= sc r) rest.
Proof.
  revert b. induction rest as [|x rest IH]; intros b; simpl.
  - split; [auto|]. split; [apply Qle_refl|constructor].
  - destruct (Qle_bool (sc x) (sc b)) eqn:Ex.
    + apply Qle_bool_iff in Ex. destruct (IH b) as (Hr & Hb & Hall).
      split; [destruct Hr; auto|]. split; [exact Hb|].
      constructor; [eapply Qle_trans; [exact Ex|exact Hb]|exact Hall].
    + assert (Hlt : sc b < sc x).
      { apply Qnot_le_lt. intros Hc. apply Qle_bool_iff in Hc. congruence. }
      destruct (IH x) as (Hr & Hx & Hall).
      split; [destruct Hr as [->|Hr]; auto|]. split; [lra|].
      constructor; [exact Hx|exact Hall].
Qed.

Lemma best_intent_max (scores : list (string * (Q * list string))) e :
  best_intent scores = Some e ->
  In e scores /\ Forall (fun x => fst (snd x) <= fst (snd e)) scores.
Proof.
  destruct scores as [|e0 rest]; simpl; [discriminate|]. intros H. inversion H as [He]; clear H.
  destruct (fold_best_max (fun e => fst (snd e)) rest e0) as (Hr & Hb & Hall).
  subst e.
  split; [destruct Hr as [Hr|Hr]; [left; symmetry; exact Hr|right; exact Hr]|].
  constructor; [exact Hb|exact Hall].
Qed.

(** X11: [classify_intent] always names one of the pattern categories
    ([billing], [technical_support], [equipment], [general]) and its
    confidence is positive and at most 0.95. *)
Theorem classify_intent_range (message : string) :
  In (ir_intent (classify_intent message)) (map fst intent_patterns) /\
  0 < ir_confidence (classify_intent message) /\
  ir_confidence (classify_intent message) <= 95 # 100.
Proof.
  assert (Hgen : In "general" (map fst intent_patterns)) by (simpl; auto 10).
  unfold classify_intent.
  destruct (String.eqb message ""); [cbn; split; [exact Hgen|split; unfold Qlt, Qle; simpl; lia]|].
  destruct (Qeq_bool (max_score (intent_scores_of message)) 0) eqn:Hz;
    [cbn; split; [exact Hgen|split; unfold Qlt, Qle; simpl; lia]|].
  destruct (best_intent (intent_scores_of message)) as [[name [score found]]|] eqn:Hb;
    [|cbn; split; [exact Hgen|split; unfold Qlt, Qle; simpl; lia]].
  cbn [ir_intent ir_confidence].
  destruct (best_intent_max _ _ Hb) as [Hin Hall].
  split.
  { unfold intent_scores_of in Hin. apply in_map_iff in Hin as [[n p] [E Hn]].
    inversion E; subst. apply in_map_iff. exists (name, p). auto. }
  assert (Hne : intent_scores_of message <> []) by (unfold intent_scores_of; discriminate).
  pose proof (max_score_in _ Hne) as Hm. apply in_map_iff in Hm as [x [Ex Hx]].
  assert (Hmax : max_score (intent_scores_of message) <= score).
  { rewrite <- Ex. exact (proj1 (List.Forall_forall _ _) Hall x Hx). }
  assert (Hm0 : 0 <= max_score (intent_scores_of message)).
  { rewrite <- Ex. exact (proj1 (List.Forall_forall _ _) (intent_scores_nonneg message) x Hx). }
  assert (Hmz : ~ max_score (intent_scores_of message) == 0).
  { intros Hq. apply Qeq_bool_iff in Hq. congruence. }
  assert (Hpos : 0 < score).
  { apply Qle_lteq in Hm0 as [Hm0|Hm0]; [lra|]. exfalso. apply Hmz. symmetry. exact Hm0. }
  unfold final_confidence.
  destruct (Q.min_spec score 1) as [[H1 H2]|[H1 H2]];
  destruct (Qle_bool (Qmin score 1) (8 # 10)) eqn:Hc; cbn [negb];
    try (apply Qle_bool_iff in Hc);
    try (destruct (Q.min_spec (Qmin score 1 + (15 # 100)) (95 # 100)) as [[H3 H4]|[H3 H4]]);
    rewrite ?H4; rewrite ?H2 in *; split; lra.
Qed.

End LocalIntentRange.

(** X12: the agent [handle_regular_message] picks from the local
    service's [route_message] is [tech_support] for a message classified
    [technical_support] or [equipment], [billing] for [billing], and
    [general] otherwise; the classification is passed on unchanged. *)
Theorem route_message_agent (message : string) :
  snd (LocalIntent.route_message message) = LocalIntent.classify_intent message /\
  agent_of_intent (fst (LocalIntent.route_message message)) =
    (let i := LocalIntent.ir_intent (LocalIntent.classify_intent message) in
     if (String.eqb i "technical_support" || String.eqb i "equipment")%bool then "tech_support"
     else if String.eqb i "billing" then "billing"
     else "general").
Proof.
  unfold LocalIntent.route_message. cbv zeta.
  destruct (String.eqb (LocalIntent.ir_intent (LocalIntent.classify_intent message))
              "technical_support") eqn:E1; [split; reflexivity|].
  destruct (String.eqb (LocalIntent.ir_intent (LocalIntent.classify_intent message)) "billing")
    eqn:E2; simpl;
  destruct (String.eqb (LocalIntent.ir_intent (LocalIntent.classify_intent message)) "equipment")
    eqn:E3; simpl; split; try reflexivity.
  apply String.eqb_eq in E2. apply String.eqb_eq in E3. congruence.
Qed.

(** ** Metrics *)

(** X13: a call of [_record_metric] whose new record is inside the
    7-day horizon keeps exactly the earlier records inside the horizon,
    in their order, and puts the new record last. *)
Theorem record_metric_keeps_recent (metrics : list Metrics.ConversationMetric)
  (cid metric_type : string) (value : pyval) (metadata : list (string * pyval))
  (t_record t_prune : Z) :
  t_prune - Metrics.retention <= t_record ->
  exists m,
    Metrics.record_metric metrics cid metric_type value metadata t_record t_prune =
      (List.filter (fun m => Z.leb (t_prune - Metrics.retention) (Metrics.cm_timestamp m)) metrics
       ++ [m])%list /\
    Metrics.cm_conversation_id m = cid /\ Metrics.cm_metric_type m = metric_type /\
    Metrics.cm_value m = value /\ Metrics.cm_timestamp m = t_record.
Proof.
  intros H. unfold Metrics.record_metric. rewrite List.filter_app. simpl.
  apply Z.leb_le in H. rewrite H. eexists. split; [reflexivity|]. repeat split.
Qed.

Lemma record_metric_keeps_recent_witness :
  let old := {| Metrics.cm_conversation_id := "c1"; Metrics.cm_user_id := "u";
                Metrics.cm_timestamp := 0; Metrics.cm_metric_type := "answer_type";
                Metrics.cm_value := PStr "kb_fallback" |} in
  let t := Metrics.retention + 5 in
  t - Metrics.retention <= t /\
  exists m,
    Metrics.record_metric [old] "c1" "tone_used" (PStr "helpful_friendly") [] t t =
      (List.filter (fun m => Z.leb (t - Metrics.retention) (Metrics.cm_timestamp m)) [old]
       ++ [m])%list /\
    Metrics.cm_conversation_id m = "c1" /\ Metrics.cm_metric_type m = "tone_used" /\
    Metrics.cm_value m = PStr "helpful_friendly" /\ Metrics.cm_timestamp m = t.
Proof.
  intros old t.
  assert (H : t - Metrics.retention <= t) by (unfold t, Metrics.retention; lia).
  exact (conj H (record_metric_keeps_recent [old] "c1" "tone_used" (PStr "helpful_friendly") [] t t H)).
Defined.

(** ** Hybrid ranking *)

(** X14: with [alpha] and both scores in [0,1] the hybrid score is in
    [0,1]; ranking boosts of at least 1 on non-negative metadata values
    never lower a non-negative score. *)
Theorem hybrid_score_bounds_and_boosts (alpha s w score : Q) (boosts : list (Q * Q)) :
  ((0 <= alpha <= 1)%Q -> (0 <= s <= 1)%Q -> (0 <= w <= 1)%Q ->
     (0 <= hybrid_score alpha s w <= 1)%Q) /\
  ((0 <= score)%Q -> Forall (fun mb => (0 <= fst mb)%Q /\ (1 <= snd mb)%Q) boosts ->
     (score <= apply_boosts score boosts)%Q).
Proof.
  split.
  - intros Ha Hs Hw. unfold hybrid_score. split; nra.
  - unfold apply_boosts. revert score. induction boosts as [|[mv b] boosts IH]; intros score H0 Hb.
    + simpl. apply Qle_refl.
    + simpl. inversion Hb as [|? ? [Hmv Hbb] Hb']; subst. cbn [fst snd] in Hmv, Hbb.
      assert (Hp : (0 <= mv * (b - 1))%Q) by (apply Qmult_le_0_compat; lra).
      assert (Hq : (0 <= score * (mv * (b - 1)))%Q) by (apply Qmult_le_0_compat; lra).
      assert (Hstep : (score <= score * (1 + mv * (b - 1)))%Q) by lra.
      eapply Qle_trans; [exact Hstep|]. apply IH; [lra|exact Hb'].
Qed.









Lemma Qle_bool_inject_Z (a b : Z) : Qle_bool (inject_Z a) (inject_Z b) = Z.leb a b.
Proof.
  destruct (Qle_bool _ _) eqn:E; symmetry.
  - apply Qle_bool_iff in E. rewrite <- Zle_Qle in E. apply Z.leb_le. exact E.
  - apply Z.leb_gt. destruct (Z.le_gt_cases a b) as [H|H]; [|exact H].
    rewrite Zle_Qle in H. apply Qle_bool_iff in H. congruence.
Qed.

Lemma py_max_ints (z : Z) (zs : list Z) :
  Metrics.py_max (map PInt (z :: zs)) = inr (PInt (fold_left Z.max zs z)).
Proof.
  simpl. revert z. induction zs as [|x zs IH]; intros z; simpl; [reflexivity|].
  unfold Metrics.py_gt. cbn [Metrics.num_of]. rewrite Qle_bool_inject_Z. cbn.
  replace (if negb (x <=? z) then PInt x else PInt z) with (PInt (Z.max z x)).
  - apply IH.
  - destruct (Z.leb_spec x z); simpl; f_equal; lia.
Qed.

Lemma fold_max_ge (n z : Z) (zs : list Z) :
  Z.leb n (fold_left Z.max zs z) = existsb (Z.leb n) (z :: zs).
Proof.
  revert z. induction zs as [|x zs IH]; intros z; simpl; [rewrite orb_false_r; reflexivity|].
  rewrite IH. simpl. rewrite orb_assoc. f_equal.
  destruct (Z.leb_spec n (Z.max z x)), (Z.leb_spec n z), (Z.leb_spec n x); simpl; lia.
Qed.

Lemma fold_max_lt (n z : Z) (zs : list Z) :
  Z.ltb (fold_left Z.max zs z) n = forallb (fun x => Z.ltb x n) (z :: zs).
Proof.
  revert z. induction zs as [|x zs IH]; intros z; simpl; [rewrite andb_true_r; reflexivity|].
  rewrite IH. simpl. rewrite andb_assoc. f_equal.
  destruct (Z.ltb_spec (Z.max z x) n), (Z.ltb_spec z n), (Z.ltb_spec x n); simpl; lia.
Qed.

Lemma get_conversation_metrics_fields (metrics : list Metrics.ConversationMetric) (cid : string) :
  Metrics.interaction_count (Metrics.get_conversation_metrics metrics cid) =
    Z.of_nat (length (List.filter (fun m => String.eqb (Metrics.cm_conversation_id m) cid) metrics)) /\
  Metrics.frustration_levels (Metrics.get_conversation_metrics metrics cid) =
    map Metrics.cm_value (List.filter (fun m => (String.eqb (Metrics.cm_conversation_id m) cid &&
                            String.eqb (Metrics.cm_metric_type m) "frustration_level")%bool) metrics) /\
  Metrics.answer_types (Metrics.get_conversation_metrics metrics cid) =
    map Metrics.cm_value (List.filter (fun m => (String.eqb (Metrics.cm_conversation_id m) cid &&
                            String.eqb (Metrics.cm_metric_type m) "answer_type")%bool) metrics).
Proof.
  assert (G : forall c0,
    Metrics.interaction_count (fold_left (Metrics.conv_metrics_step cid) metrics c0) =
      Metrics.interaction_count c0 +
      Z.of_nat (length (List.filter (fun m => String.eqb (Metrics.cm_conversation_id m) cid) metrics)) /\
    Metrics.frustration_levels (fold_left (Metrics.conv_metrics_step cid) metrics c0) =
      (Metrics.frustration_levels c0 ++
       map Metrics.cm_value (List.filter (fun m => (String.eqb (Metrics.cm_conversation_id m) cid &&
                            String.eqb (Metrics.cm_metric_type m) "frustration_level")%bool) metrics))%list /\
    Metrics.answer_types (fold_left (Metrics.conv_metrics_step cid) metrics c0) =
      (Metrics.answer_types c0 ++
       map Metrics.cm_value (List.filter (fun m => (String.eqb (Metrics.cm_conversation_id m) cid &&
                            String.eqb (Metrics.cm_metric_type m) "answer_type")%bool) metrics))%list).
  { induction metrics as [|m metrics IH]; intros c0; cbn [fold_left List.filter map length].
    - rewrite !app_nil_r. split; [lia|split; reflexivity].
    - destruct (IH (Metrics.conv_metrics_step cid c0 m)) as (H1 & H2 & H3).
      rewrite H1, H2, H3. unfold Metrics.conv_metrics_step.
      destruct (String.eqb (Metrics.cm_conversation_id m) cid); cbn [andb];
        [|split; [lia|split; reflexivity]].
      destruct (String.eqb_spec (Metrics.cm_metric_type m) "frustration_level") as [Ef|Ef];
        [rewrite ?Ef; cbn; rewrite <- !app_assoc; split; [lia|split; reflexivity]|].
      destruct (String.eqb_spec (Metrics.cm_metric_type m) "answer_type") as [Ea|Ea];
        [rewrite ?Ea; cbn; rewrite <- !app_assoc; split; [lia|split; reflexivity]|].
      destruct (String.eqb (Metrics.cm_metric_type m) "processing_time"); cbn;
        split; [lia|split; reflexivity|lia|split; reflexivity]. }
  unfold Metrics.get_conversation_metrics. destruct (G {| Metrics.interaction_count := 0;
    Metrics.frustration_levels := []; Metrics.answer_types := [];
    Metrics.processing_times := None |}) as (H1 & H2 & H3).
  rewrite H1, H2, H3. cbn. split; [lia|split; reflexivity].
Qed.

(** X16: when every [frustration_level] value recorded for the
    conversation is an [int], [get_conversation_insights] succeeds and
    returns the eight keys: the count of the conversation's records, the
    frustration values and answer types in recording order, the defaults
    [0], [0] and ["unknown"] for the keys [_get_conversation_metrics]
    never sets, and an outcome that is ["likely_escalation"] when some
    frustration value is at least 7, ["likely_resolved"] when all are
    below 3 (in particular when there is none), and
    ["ongoing_assistance"] otherwise. *)
Theorem get_conversation_insights_shape (metrics : list Metrics.ConversationMetric)
    (cid : string) (zs : list Z)
    (Hz : map Metrics.cm_value (List.filter (fun m => (String.eqb (Metrics.cm_conversation_id m) cid &&
            String.eqb (Metrics.cm_metric_type m) "frustration_level")%bool) metrics) = map PInt zs) :
  Metrics.get_conversation_insights metrics cid =
  inr [("conversation_id", PStr cid);
       ("total_interactions",
          PInt (Z.of_nat (length (List.filter (fun m => String.eqb (Metrics.cm_conversation_id m) cid) metrics))));
       ("average_response_time", PInt 0);
       ("frustration_progression", PList (map PInt zs));
       ("resolution_attempts", PInt 0);
       ("primary_tone", PStr "unknown");
       ("answer_types_used",
          PList (map Metrics.cm_value (List.filter (fun m => (String.eqb (Metrics.cm_conversation_id m) cid &&
            String.eqb (Metrics.cm_metric_type m) "answer_type")%bool) metrics)));
       ("outcome_prediction",
          PStr (if existsb (Z.leb 7) zs then "likely_escalation"
                else if forallb (fun z => Z.ltb z 3) zs then "likely_resolved"
                else "ongoing_assistance"))].
Proof.
  destruct (get_conversation_metrics_fields metrics cid) as (H1 & H2 & H3).
  unfold Metrics.get_conversation_insights, Metrics.predict_outcome.
  set (c := Metrics.get_conversation_metrics metrics cid) in *.
  unfold Metrics.conv_get. cbn [String.eqb Ascii.eqb Bool.eqb andb].
  rewrite H1, H2, H3, Hz.
  destruct zs as [|z zs].
  - reflexivity.
  - replace (match PList (map PInt (z :: zs)) with
             | PList [] => inr (PInt 0)
             | PList l => Metrics.py_max l
             | _ => inl Metrics.type_error
             end) with (Metrics.py_max (map PInt (z :: zs))) by reflexivity.
    rewrite py_max_ints. cbn [Metrics.ebind Metrics.py_cmp_int Metrics.num_of].
    unfold Metrics.py_ge, Metrics.py_lt, Metrics.py_le.
    rewrite !Qle_bool_inject_Z.
    replace (Z.leb 7 (fold_left Z.max zs z)) with (existsb (Z.leb 7) (z :: zs))
      by (symmetry; apply fold_max_ge).
    replace (negb (Z.leb 3 (fold_left Z.max zs z))) with (forallb (fun x => Z.ltb x 3) (z :: zs))
      by (rewrite <- fold_max_lt; destruct (Z.ltb_spec (fold_left Z.max zs z) 3),
            (Z.leb_spec 3 (fold_left Z.max zs z)); simpl; lia || reflexivity).
    destruct (existsb (Z.leb 7) (z :: zs)), (forallb (fun x => Z.ltb x 3) (z :: zs));
      reflexivity.
Qed.

Lemma get_conversation_insights_shape_witness :
  let ms := [Metrics.Build_ConversationMetric "c1" "u1" 0 "frustration_level" (PInt 8);
             Metrics.Build_ConversationMetric "c1" "u1" 1 "answer_type" (PStr "kb");
             Metrics.Build_ConversationMetric "c2" "u2" 2 "frustration_level" (PInt 1)] in
  map Metrics.cm_value (List.filter (fun m => (String.eqb (Metrics.cm_conversation_id m) "c1" &&
     String.eqb (Metrics.cm_metric_type m) "frustration_level")%bool) ms) = map PInt [8] /\
  Metrics.get_conversation_insights ms "c1" =
  inr [("conversation_id", PStr "c1"); ("total_interactions", PInt 2);
       ("average_response_time", PInt 0); ("frustration_progression", PList [PInt 8]);
       ("resolution_attempts", PInt 0); ("primary_tone", PStr "unknown");
       ("answer_types_used", PList [PStr "kb"]);
       ("outcome_prediction", PStr "likely_escalation")].
Proof.
  intros ms. split; [reflexivity|].
  exact (get_conversation_insights_shape ms "c1" [8] eq_refl).
Defined.

Lemma list_ascii_of_string_app (s t : string) :
  list_ascii_of_string (s ++ t) = (list_ascii_of_string s ++ list_ascii_of_string t)%list.
Proof. induction s as [|c s IH]; simpl; [reflexivity|rewrite IH; reflexivity]. Qed.

Lemma rev_str_chars (s : string) :
  list_ascii_of_string (PyStr.rev_str s) = rev (list_ascii_of_string s).
Proof. unfold PyStr.rev_str. apply list_ascii_of_string_of_list_ascii. Qed.

Lemma lstrip_chars (s : string) (c : ascii) :
  In c (list_ascii_of_string (PyStr.lstrip s)) -> In c (list_ascii_of_string s).
Proof.
  induction s as [|d s IH]; simpl; [tauto|].
  destruct (PyStr.is_space d); simpl; auto.
Qed.

Lemma strip_chars (s : string) (c : ascii) :
  In c (list_ascii_of_string (PyStr.strip s)) -> In c (list_ascii_of_string s).
Proof.
  unfold PyStr.strip. rewrite rev_str_chars. intros H.
  apply in_rev, lstrip_chars in H. rewrite rev_str_chars in H.
  apply in_rev, lstrip_chars in H. exact H.
Qed.

Lemma filter_chars_keep (s : string) (c : ascii) :
  In c (list_ascii_of_string (filter_chars s)) -> keep_char c = true.
Proof.
  induction s as [|d s IH]; simpl; [tauto|].
  destruct (keep_char d) eqn:E; simpl; [intros [<-|H]; auto|auto].
Qed.

Lemma split_ws_aux_words (P : ascii -> Prop) (s cur : string) :
  Forall P (list_ascii_of_string cur) ->
  Forall (fun c => PyStr.is_space c = false -> P c) (list_ascii_of_string s) ->
  Forall (fun t => t <> "" /\ Forall P (list_ascii_of_string t)) (PyStr.split_ws_aux s cur).
Proof.
  assert (Hcur : forall cur, Forall P (list_ascii_of_string cur) ->
            Forall (fun t => t <> "" /\ Forall P (list_ascii_of_string t))
              (if String.eqb cur "" then [] else [cur])).
  { intros cur0 H. destruct (String.eqb_spec cur0 ""); constructor; auto. }
  revert cur. induction s as [|c s IH]; intros cur Hc Hs; simpl; [apply Hcur, Hc|].
  simpl in Hs. apply Forall_cons_iff in Hs as [Hc1 Hs].
  destruct (PyStr.is_space c) eqn:E.
  - apply Forall_app. split; [apply Hcur, Hc|apply IH; [constructor|exact Hs]].
  - apply IH; [|exact Hs]. rewrite list_ascii_of_string_app. apply Forall_app.
    split; [exact Hc|]. simpl. constructor; [apply Hc1; reflexivity|constructor].
Qed.

(** X17: every token [tokenize] produces is a non-empty word of
    lowercase ASCII letters and digits: [normalize] keeps only
    [[a-z0-9 ]] and [split()] drops the spaces and empty pieces. *)
Theorem tokenize_tokens (text : string) :
  Forall (fun t => t <> "" /\
            Forall (fun c => let n := nat_of_ascii c in (97 <= n <= 122 \/ 48 <= n <= 57)%nat)
              (list_ascii_of_string t))
         (tokenize text).
Proof.
  unfold tokenize, PyStr.split_ws. apply split_ws_aux_words; [constructor|].
  apply List.Forall_forall. intros c Hin Hsp.
  unfold normalize in Hin. apply strip_chars, filter_chars_keep in Hin.
  unfold keep_char in Hin. unfold PyStr.is_space in Hsp. cbv zeta in *.
  destruct (Nat.eqb_spec (nat_of_ascii c) 32) as [E|E].
  - rewrite E in Hsp. discriminate.
  - rewrite orb_false_r in Hin. apply orb_true_iff in Hin as [H|H];
      apply andb_true_iff in H as [H1 H2]; apply Nat.leb_le in H1, H2; lia.
Qed.

Lemma lstrip_empty (s : string) :
  PyStr.lstrip s = "" -> Forall (fun d => PyStr.is_space d = true) (list_ascii_of_string s).
Proof.
  induction s as [|d s IH]; simpl; [constructor|].
  destruct (PyStr.is_space d) eqn:E; [intros H; constructor; auto|discriminate].
Qed.

Lemma lstrip_head (s : string) (d : ascii) (t : string) :
  PyStr.lstrip s = String d t -> PyStr.is_space d = false.
Proof.
  induction s as [|e s IH]; simpl; [discriminate|].
  destruct (PyStr.is_space e) eqn:E; [exact IH|congruence].
Qed.

Lemma strip_empty (s : string) :
  PyStr.strip s = "" -> Forall (fun d => PyStr.is_space d = true) (list_ascii_of_string s).
Proof.
  unfold PyStr.strip. intros H.
  assert (H1 : PyStr.lstrip (PyStr.rev_str (PyStr.lstrip s)) = "").
  { pose proof (rev_str_chars (PyStr.lstrip (PyStr.rev_str (PyStr.lstrip s)))) as R.
    rewrite H in R. simpl in R. symmetry in R. apply (f_equal (@rev ascii)) in R.
    rewrite rev_involutive in R. simpl in R.
    rewrite <- (string_of_list_ascii_of_string (PyStr.lstrip _)), R. reflexivity. }
  apply lstrip_empty in H1. rewrite rev_str_chars in H1. apply Forall_rev in H1.
  rewrite rev_involutive in H1.
  destruct (PyStr.lstrip s) as [|d t] eqn:E.
  - apply lstrip_empty, E.
  - apply lstrip_head in E. simpl in H1. apply Forall_cons_iff in H1 as [H1 _]. congruence.
Qed.

Lemma lower_chars (s : string) (c : ascii) :
  In c (list_ascii_of_string (PyStr.lower s)) ->
  exists d, In d (list_ascii_of_string s) /\ c = PyStr.lower_char d.
Proof.
  induction s as [|d s IH]; simpl; [tauto|].
  intros [<-|H]; [exists d; auto|destruct (IH H) as (e & He & ->); exists e; auto].
Qed.

Lemma contains_first_char (c : ascii) (p s : string) :
  PyStr.contains (String c p) s = true -> In c (list_ascii_of_string s).
Proof.
  induction s as [|d s IH]; simpl; [discriminate|].
  intros H. apply orb_true_iff in H as [H|H]; [|right; auto].
  apply andb_true_iff in H as [H _]. apply Ascii.eqb_eq in H. left; congruence.
Qed.

Lemma join_empty_head (sep x : string) (l : list string) :
  PyStr.join sep (x :: l) = "" -> x = "".
Proof.
  destruct l; simpl; [auto|]. destruct x; simpl; [auto|discriminate].
Qed.

(** X18: [extract_solution_summary] returns an empty summary exactly
    when the response is empty: a kept action sentence contains an
    action word, so it is not blank after [strip], and without action
    sentences the first 100 characters of a non-empty response are
    non-empty. *)
Theorem extract_solution_summary_empty_iff (response : string) :
  extract_solution_summary response = "" <-> response = "".
Proof.
  split; [|intros ->; reflexivity].
  unfold extract_solution_summary.
  destruct (List.filter _ _) as [|x xs] eqn:F; cbn [map].
  - unfold PyStr.take. destruct response; simpl; [reflexivity|discriminate].
  - cbn [firstn]. intros H. apply join_empty_head, strip_empty in H.
    assert (Hx : In x (List.filter (fun s => existsb (fun a => PyStr.contains a (PyStr.lower s))
                                              action_words)
                        (PyStr.split_on "." response))) by (rewrite F; left; reflexivity).
    apply filter_In in Hx as [_ Hx]. apply existsb_exists in Hx as (a & Ha & Hc).
    assert (Hf : exists c p, a = String c p /\ PyStr.is_space c = false).
    { unfold action_words in Ha. simpl in Ha.
      repeat (destruct Ha as [<-|Ha]; [do 2 eexists; split; reflexivity|]); contradiction. }
    destruct Hf as (c & p & -> & Hsp).
    apply contains_first_char, lower_chars in Hc as (d & Hd & ->).
    rewrite List.Forall_forall in H. specialize (H d Hd).
    unfold PyStr.lower_char in Hsp.
    destruct (PyStr.is_upper d) eqn:U; [|congruence].
    unfold PyStr.is_upper, PyStr.is_space in *. cbv zeta in *.
    apply andb_true_iff in U as [U1 U2]. apply Nat.leb_le in U1, U2.
    apply orb_true_iff in H as [H|H]; apply andb_true_iff in H as [H1 H2];
      apply Nat.leb_le in H1, H2; lia.
Qed.


Lemma find_map_same {A} (f : A -> bool) (g : A -> A) (l : list A)
  (Hf : forall x, f (g x) = f x) :
  List.find f (map g l) = option_map g (List.find f l).
Proof.
  induction l as [|x l IH]; simpl; [reflexivity|]. rewrite Hf. destruct (f x); [reflexivity|exact IH].
Qed.

Lemma find_app_none {A} (f : A -> bool) (l1 l2 : list A) :
  List.find f l1 = None -> List.find f (l1 ++ l2) = List.find f l2.
Proof.
  induction l1 as [|x l1 IH]; simpl; [reflexivity|]. destruct (f x); [discriminate|exact IH].
Qed.

Lemma find_app_some {A} (f : A -> bool) (l1 l2 : list A) (x : A) :
  List.find f l1 = Some x -> List.find f (l1 ++ l2) = Some x.
Proof.
  induction l1 as [|y l1 IH]; simpl; [discriminate|]. destruct (f y); [exact id|exact IH].
Qed.

(** X19: [add_custom_pattern] appends a new intent at the end of the
    supported intents and leaves the list alone for a known one; the
    entry under [intent] then holds its former keywords followed by the
    new ones, its former phrases followed by the new ones (nothing is
    added for an omitted or empty [phrases]) and its former boost (0.1
    for a new intent); every other intent keeps its entry. *)
Theorem add_custom_pattern_spec (patterns : list (string * LocalIntent.IntentPattern))
    (intent : string) (keywords : list string) (phrases : option (list string)) :
  let patterns' := LocalIntent.add_custom_pattern patterns intent keywords phrases in
  LocalIntent.get_supported_intents patterns' =
    (if existsb (fun np => String.eqb (fst np) intent) patterns
     then LocalIntent.get_supported_intents patterns
     else LocalIntent.get_supported_intents patterns ++ [intent])%list /\
  (forall n, n <> intent ->
     LocalIntent.pattern_get patterns' n = LocalIntent.pattern_get patterns n) /\
  LocalIntent.pattern_get patterns' intent =
    (let old := default LocalIntent.empty_pattern (LocalIntent.pattern_get patterns intent) in
     Some {| LocalIntent.ip_keywords := (LocalIntent.ip_keywords old ++ keywords)%list;
             LocalIntent.ip_phrases := (LocalIntent.ip_phrases old ++ default [] phrases)%list;
             LocalIntent.ip_confidence_boost := LocalIntent.ip_confidence_boost old |}).
Proof.
  cbv zeta. unfold LocalIntent.add_custom_pattern.
  set (base := if existsb (fun np => String.eqb (fst np) intent) patterns then patterns
               else (patterns ++ [(intent, LocalIntent.empty_pattern)])%list).
  set (g1 := fun np : string * LocalIntent.IntentPattern =>
               if String.eqb (fst np) intent
               then (fst np, {| LocalIntent.ip_keywords := (LocalIntent.ip_keywords (snd np) ++ keywords)%list;
                                LocalIntent.ip_phrases := LocalIntent.ip_phrases (snd np);
                                LocalIntent.ip_confidence_boost := LocalIntent.ip_confidence_boost (snd np) |})
               else np).
  set (g2 := fun (ph : list string) (np : string * LocalIntent.IntentPattern) =>
               if String.eqb (fst np) intent
               then (fst np, {| LocalIntent.ip_keywords := LocalIntent.ip_keywords (snd np);
                                LocalIntent.ip_phrases := (LocalIntent.ip_phrases (snd np) ++ ph)%list;
                                LocalIntent.ip_confidence_boost := LocalIntent.ip_confidence_boost (snd np) |})
               else np).
  assert (Hfst1 : forall np, fst (g1 np) = fst np)
    by (intros [n p]; unfold g1; simpl; destruct (String.eqb n intent); reflexivity).
  assert (Hfst2 : forall ph np, fst (g2 ph np) = fst np)
    by (intros ph [n p]; unfold g2; simpl; destruct (String.eqb n intent); reflexivity).
  (* the result, as one map over [base] *)
  set (g := fun np => match phrases with
                      | Some ((_ :: _) as ph) => g2 ph (g1 np)
                      | _ => g1 np
                      end).
  lazymatch goal with
  | |- context [LocalIntent.get_supported_intents ?M] =>
      assert (Hres : M = map g base)
        by (unfold g, g2; destruct phrases as [[|x ph]|]; rewrite ?map_map; reflexivity);
      rewrite Hres
  end.
  assert (Hfst : forall np, fst (g np) = fst np)
    by (intros np; unfold g; destruct phrases as [[|x ph]|]; rewrite ?Hfst2; apply Hfst1).
  assert (Hget : forall n, LocalIntent.pattern_get (map g base) n =
                           option_map (fun p => snd (g (n, p))) (LocalIntent.pattern_get base n)).
  { intros n. unfold LocalIntent.pattern_get.
    rewrite (find_map_same _ g base) by (intros np; rewrite Hfst; reflexivity).
    destruct (List.find _ base) as [[m p]|] eqn:E; [|reflexivity].
    apply find_some in E as [_ E]. apply String.eqb_eq in E. simpl in E. subst m. reflexivity. }
  assert (Hbase : forall n, LocalIntent.pattern_get base n =
             if existsb (fun np => String.eqb (fst np) intent) patterns
             then LocalIntent.pattern_get patterns n
             else if String.eqb intent n
                  then Some (default LocalIntent.empty_pattern (LocalIntent.pattern_get patterns n))
                  else LocalIntent.pattern_get patterns n).
  { intros n. unfold base. destruct (existsb _ patterns) eqn:Ex; [reflexivity|].
    unfold LocalIntent.pattern_get.
    destruct (List.find (fun np => String.eqb (fst np) n) patterns) as [[m p]|] eqn:E.
    - rewrite (find_app_some _ _ _ _ E).
      apply find_some in E as [Hin E]. simpl in E. apply String.eqb_eq in E. subst m.
      destruct (String.eqb_spec intent n) as [->|_]; [|reflexivity].
      exfalso. assert (existsb (fun np => String.eqb (fst np) n) patterns = true)
        by (apply existsb_exists; exists (n, p); split; [exact Hin|apply String.eqb_refl]).
      congruence.
    - rewrite (find_app_none _ _ _ E). simpl.
      destruct (String.eqb_spec intent n); reflexivity. }
  split; [|split].
  - unfold LocalIntent.get_supported_intents. rewrite map_map.
    rewrite (map_ext (fun x => fst (g x)) fst) by exact Hfst.
    unfold base. destruct (existsb _ patterns); [reflexivity|]. rewrite map_app. reflexivity.
  - intros n Hn. rewrite Hget, Hbase.
    assert (Hne : String.eqb intent n = false) by (apply String.eqb_neq; congruence).
    rewrite Hne. destruct (existsb _ patterns);
      destruct (LocalIntent.pattern_get patterns n) as [p|] eqn:E; try reflexivity;
      simpl; f_equal; unfold g, g1, g2; simpl;
      rewrite (proj2 (String.eqb_neq n intent) Hn); destruct phrases as [[|x ph]|]; simpl;
      rewrite ?(proj2 (String.eqb_neq n intent) Hn); destruct p; reflexivity.
  - rewrite Hget, Hbase, String.eqb_refl.
    destruct (existsb _ patterns) eqn:Ex.
    + destruct (LocalIntent.pattern_get patterns intent) as [p|] eqn:E.
      * simpl. unfold g, g1, g2. simpl. rewrite String.eqb_refl.
        destruct phrases as [[|x ph]|]; simpl; rewrite ?String.eqb_refl; simpl;
          rewrite ?app_nil_r; reflexivity.
      * exfalso. apply existsb_exists in Ex as ([m p] & Hin & Hm). simpl in Hm.
        unfold LocalIntent.pattern_get in E.
        destruct (List.find (fun np => String.eqb (fst np) intent) patterns) eqn:F;
          [discriminate|].
        pose proof (find_none _ _ F (m, p) Hin) as C. simpl in C. congruence.
    + simpl. unfold g, g1, g2. simpl. rewrite String.eqb_refl.
      destruct phrases as [[|x ph]|]; simpl; rewrite ?String.eqb_refl; simpl;
        rewrite ?app_nil_r; reflexivity.
Qed.

(** X20: [handle_follow_up] with no chain for the conversation and the
    LLM off raises the [ConversationChain] validation error before its
    [try] block, changing nothing.  With a chain already there it never
    changes the service; with the LLM off it answers
    [follow_up_response] with [create_empathetic_fallback_text]; with
    the LLM on it answers [follow_up_response] with the completion and
    its summary, or [create_empathetic_fallback] when the completion
    raises an [Exception]. *)
Theorem handle_follow_up_cases (env : Env) (cid message : string)
    (ctx : ConversationContext) (s : ChatService) :
  let prompt := PFollowUp message (attempt_count ctx) (frustration_level ctx)
                          (last_solution_offered ctx) in
  let '(r, s') := handle_follow_up env cid message ctx s in
  (cid ∉ conversations s -> llm_available s = false ->
     r = inl (Exception "ValidationError" "1 validation error for ConversationChain llm") /\
     s' = s) /\
  (cid ∈ conversations s ->
     s' = s /\
     (llm_available s = false ->
        exists resp, r = inr resp /\ answer resp = create_empathetic_fallback_text ctx /\
                     answer_type resp = "follow_up_response") /\
     (forall ans, llm_available s = true -> arun env prompt = inr ans ->
        exists resp, r = inr resp /\ answer resp = ans /\
                     answer_type resp = "follow_up_response" /\
                     solution_summary resp = Some (extract_solution_summary ans)) /\
     (forall c m, llm_available s = true -> arun env prompt = inl (Exception c m) ->
        r = inr (create_empathetic_fallback ctx))).
Proof.
  cbv zeta. unfold handle_follow_up, get_or_create_conversation_with_tone, try_except,
    bind, gets, ret, lift, raise, modify.
  destruct (decide (cid ∈ conversations s)) as [Hin|Hnin];
    destruct (llm_available s) eqn:L;
    destruct (arun env (PFollowUp message (attempt_count ctx) (frustration_level ctx)
                                  (last_solution_offered ctx))) as [[c0 m0|c0]|a0] eqn:Ha;
    destruct (new_chat_llm env); cbv beta iota;
    unfold set_conversations; cbn [llm_available]; rewrite ?L; cbv beta iota;
    repeat split; intros; try contradiction; try discriminate; try congruence;
    try (eexists; split; [reflexivity|]; cbn; repeat split; congruence).
Qed.

Section HybridSearchProps.

Import Hybrid.

Definition score_desc (a b : HResult) : Prop := (hr_hybrid_score b <= hr_hybrid_score a)%Q.

Lemma insert_desc_In (x y : HResult) (l : list HResult) :
  In y (insert_desc x l) <-> x = y \/ In y l.
Proof.
  induction l as [|z l IH]; simpl; [tauto|].
  destruct (Qle_bool _ _); simpl; [rewrite IH|]; tauto.
Qed.

Lemma insert_desc_length (x : HResult) (l : list HResult) :
  length (insert_desc x l) = S (length l).
Proof.
  induction l as [|z l IH]; simpl; [reflexivity|]. destruct (Qle_bool _ _); simpl; auto.
Qed.

Lemma insert_desc_sorted (x : HResult) (l : list HResult) :
  Sorted score_desc l -> Sorted score_desc (insert_desc x l).
Proof.
  induction 1 as [|z l Hs IH Hd]; simpl; [repeat constructor|].
  destruct (Qle_bool (hr_hybrid_score x) (hr_hybrid_score z)) eqn:E.
  - constructor; [exact IH|]. apply Qle_bool_iff in E.
    destruct l as [|w l]; simpl; [constructor; exact E|].
    inversion Hd as [|? ? Hzw]; subst.
    destruct (Qle_bool (hr_hybrid_score x) (hr_hybrid_score w)); constructor; [exact Hzw|exact E].
  - constructor; [constructor; assumption|]. constructor.
    unfold score_desc. apply Qlt_le_weak, Qnot_le_lt. intros C.
    apply Qle_bool_iff in C. congruence.
Qed.

Lemma sort_desc_props (l : list HResult) :
  Sorted score_desc (sort_desc l) /\ length (sort_desc l) = length l /\
  (forall y, In y (sort_desc l) <-> In y l).
Proof.
  unfold sort_desc.
  assert (G : forall acc, Sorted score_desc acc ->
            Sorted score_desc (fold_left (fun acc x => insert_desc x acc) l acc) /\
            length (fold_left (fun acc x => insert_desc x acc) l acc) = (length acc + length l)%nat /\
            (forall y, In y (fold_left (fun acc x => insert_desc x acc) l acc) <-> In y acc \/ In y l)).
  { induction l as [|x l IH]; intros acc Hacc; simpl.
    - split; [exact Hacc|split; [lia|tauto]].
    - destruct (IH (insert_desc x acc) (insert_desc_sorted x acc Hacc)) as (H1 & H2 & H3).
      split; [exact H1|split].
      + rewrite H2, insert_desc_length. lia.
      + intros y. rewrite H3, insert_desc_In. tauto. }
  destruct (G [] (Sorted_nil _)) as (H1 & H2 & H3). split; [exact H1|split; [exact H2|]].
  intros y. rewrite H3. simpl. tauto.
Qed.

Lemma firstn_sorted {A} (R : A -> A -> Prop) (n : nat) (l : list A) :
  Sorted R l -> Sorted R (firstn n l).
Proof.
  revert l. induction n as [|n IH]; intros l Hs; simpl; [constructor|].
  destruct l as [|x l]; [constructor|]. apply Sorted_inv in Hs as [Hs Hd].
  constructor; [apply IH, Hs|].
  destruct n as [|n]; simpl; [constructor|]. destruct l as [|y l]; [constructor|].
  inversion Hd; subst. constructor. assumption.
Qed.

Lemma firstn_in {A} (n : nat) (l : list A) (x : A) : In x (firstn n l) -> In x l.
Proof.
  intros H. rewrite <- (firstn_skipn n l). apply in_or_app. left. exact H.
Qed.

(** What [passed = True] means: every filter key is in the response,
    with a matching tag for a list filter and an equal value otherwise. *)
Definition filter_holds (resp : Resp) (kv : string * pyval) : Prop :=
  exists v, dict_get resp (fst kv) = Some v /\
    match snd kv with
    | PList tags => any_in tags v = inr true
    | _ => Metrics.py_eq v (snd kv) = true
    end.

Lemma passes_true (filters : list (string * pyval)) (resp : Resp) :
  passes filters resp = inr true -> Forall (filter_holds resp) filters.
Proof.
  induction filters as [|[key val] fs IH]; simpl; intros H; [constructor|].
  destruct (dict_get resp key) as [v|] eqn:Ek; [|discriminate].
  destruct val as [s|q|z|b| |tags];
    try (destruct (Metrics.py_eq v _) eqn:Eq; [|discriminate];
         constructor; [exists v; split; [exact Ek|exact Eq]|apply IH, H]).
  destruct (any_in tags v) as [e|[|]] eqn:Ea; simpl in H; try discriminate.
  constructor; [exists v; split; [exact Ek|exact Ea]|apply IH, H].
Qed.

Definition scored_candidate (keyword_score : Resp -> exn + Q) (alpha : Q)
    (filters : list (string * pyval)) (ranking_boosts : list (string * Q))
    (sem_results : list (Resp * Q)) (r : HResult) : Prop :=
  In (hr_response r, hr_semantic_score r) sem_results /\
  keyword_score (hr_response r) = inr (hr_keyword_score r) /\
  hr_hybrid_score r =
    apply_boosts (hybrid_score alpha (hr_semantic_score r) (hr_keyword_score r))
                 (boost_pairs (hr_response r) ranking_boosts) /\
  Forall (filter_holds (hr_response r)) filters.

Lemma collect_props (keyword_score : Resp -> exn + Q) (alpha : Q)
    (filters : list (string * pyval)) (ranking_boosts : list (string * Q))
    (sem_results : list (Resp * Q)) (fr : list HResult) :
  collect keyword_score alpha filters ranking_boosts sem_results = inr fr ->
  Forall (scored_candidate keyword_score alpha filters ranking_boosts sem_results) fr.
Proof.
  revert fr. induction sem_results as [|[resp sem] rest IH]; intros fr H; simpl in H.
  - injection H as <-. constructor.
  - destruct (passes filters resp) as [e|[|]] eqn:Ep; simpl in H; [discriminate| |].
    + destruct (keyword_score resp) as [e|kw] eqn:Ek; simpl in H; [discriminate|].
      destruct (collect keyword_score alpha filters ranking_boosts rest) as [e|rs] eqn:Er;
        simpl in H; [discriminate|]. injection H as <-.
      constructor.
      * split; [left; reflexivity|]. split; [exact Ek|]. split; [reflexivity|].
        apply passes_true, Ep.
      * eapply List.Forall_impl; [|apply IH; reflexivity].
        intros r (H1 & H2). split; [right; exact H1|exact H2].
    + eapply List.Forall_impl; [|apply IH, H].
      intros r (H1 & H2). split; [right; exact H1|exact H2].
Qed.

Lemma collect_no_filters (keyword_score : Resp -> exn + Q) (alpha : Q)
    (ranking_boosts : list (string * Q)) (sem_results : list (Resp * Q))
    (Hkw : forall resp, exists q, keyword_score resp = inr q) :
  exists fr, collect keyword_score alpha [] ranking_boosts sem_results = inr fr /\
             length fr = length sem_results.
Proof.
  induction sem_results as [|[resp sem] rest IH]; simpl; [exists []; split; reflexivity|].
  destruct (Hkw resp) as [q Hq]. rewrite Hq. simpl.
  destruct IH as (fr & Hfr & Hl). rewrite Hfr. simpl.
  eexists; split; [reflexivity|]. simpl. rewrite Hl. reflexivity.
Qed.

End HybridSearchProps.

(** X21: a successful [hybrid_search] returns at most [top_k] results,
    in non-increasing order of hybrid score; each one is a candidate of
    the semantic search that meets every filter (its key present, a
    shared tag for a list filter, an equal value otherwise), with its
    keyword score and the hybrid score [alpha * semantic + (1 - alpha)
    * keyword] times the boost factor of each numeric metadata value. *)
Theorem hybrid_search_results (keyword_score : Hybrid.Resp -> exn + Q)
    (sem_results : list (Hybrid.Resp * Q)) (top_k : nat) (alpha : Q)
    (filters : list (string * pyval)) (ranking_boosts : list (string * Q))
    (rs : list Hybrid.HResult)
    (H : Hybrid.hybrid_search keyword_score sem_results top_k alpha filters ranking_boosts = inr rs) :
  (length rs <= top_k)%nat /\
  Sorted score_desc rs /\
  Forall (scored_candidate keyword_score alpha filters ranking_boosts sem_results) rs.
Proof.
  unfold Hybrid.hybrid_search in H.
  destruct (Hybrid.collect keyword_score alpha filters ranking_boosts sem_results) as [e|fr] eqn:Ec;
    simpl in H; [discriminate|]. injection H as <-.
  destruct (sort_desc_props fr) as (S1 & _ & S3).
  split; [rewrite length_firstn; lia|split; [apply firstn_sorted, S1|]].
  apply List.Forall_forall. intros r Hr.
  apply firstn_in, S3 in Hr.
  exact (proj1 (List.Forall_forall _ _) (collect_props _ _ _ _ _ _ Ec) r Hr).
Qed.

Lemma hybrid_search_results_witness :
  let resp1 : Hybrid.Resp := [("agent", PStr "billing"); ("keywords", PList [PStr "bill"])] in
  let resp2 : Hybrid.Resp := [("agent", PStr "general"); ("keywords", PList [])] in
  let kw := fun (_ : Hybrid.Resp) => inr (1 # 2) : exn + Q in
  let rs := [{| Hybrid.hr_response := resp1; Hybrid.hr_semantic_score := 1%Q;
                Hybrid.hr_keyword_score := 1 # 2;
                Hybrid.hr_hybrid_score := hybrid_score (7 # 10) 1%Q (1 # 2) |}] in
  Hybrid.hybrid_search kw [(resp1, 1%Q); (resp2, 1 # 4)] 1 (7 # 10)
    [("agent", PStr "billing")] [] = inr rs /\
  Forall (scored_candidate kw (7 # 10) [("agent", PStr "billing")] []
            [(resp1, 1%Q); (resp2, 1 # 4)]) rs.
Proof.
  intros resp1 resp2 kw rs. split; [reflexivity|].
  exact (proj2 (proj2 (hybrid_search_results kw [(resp1, 1%Q); (resp2, 1 # 4)] 1 (7 # 10)
                         [("agent", PStr "billing")] [] rs eq_refl))).
Defined.

(** X22: with no filters and a keyword score that does not raise,
    [hybrid_search] drops no candidate: it returns
    [min(top_k, len(sem_results))] results. *)
Theorem hybrid_search_no_filters_length (keyword_score : Hybrid.Resp -> exn + Q)
    (sem_results : list (Hybrid.Resp * Q)) (top_k : nat) (alpha : Q)
    (ranking_boosts : list (string * Q))
    (Hkw : forall resp, exists q, keyword_score resp = inr q) :
  exists rs, Hybrid.hybrid_search keyword_score sem_results top_k alpha [] ranking_boosts = inr rs /\
             length rs = Nat.min top_k (length sem_results).
Proof.
  destruct (collect_no_filters keyword_score alpha ranking_boosts sem_results Hkw) as (fr & Hfr & Hl).
  unfold Hybrid.hybrid_search. rewrite Hfr. simpl. eexists; split; [reflexivity|].
  rewrite length_firstn. destruct (sort_desc_props fr) as (_ & L & _). rewrite L, Hl. reflexivity.
Qed.

Lemma hybrid_search_no_filters_length_witness :
  exists rs, Hybrid.hybrid_search (fun _ => inr 0%Q) [([], 1%Q); ([], 0%Q); ([], 1 # 2)] 2
               (1 # 2) [] [] = inr rs /\ length rs = 2%nat.
Proof.
  exact (hybrid_search_no_filters_length (fun _ => inr 0%Q) [([], 1%Q); ([], 0%Q); ([], 1 # 2)] 2
           (1 # 2) [] (fun _ => ex_intro _ 0%Q eq_refl)).
Defined.
